(** * Sales dashboard (dash2.py): data generator and filter/aggregation pipeline

    A shallow embedding of the two computational parts of [dash2.py]:

    - [generate_sales_data] (lines 10-55), the synthetic transaction log;
    - the module-level script (lines 72-142, 150-251) that filters the log,
      derives the previous comparison period, the five KPIs and the grouped
      top-N tables.

    Modelling conventions.

    - A calendar day ([datetime], [pd.Timestamp] at midnight) is its
      proleptic Gregorian ordinal, a [Z]; [timedelta(days=n)] is [n].
    - Python [float]s are modelled by exact rationals ([Q]): the embedding
      is the real-number reading of the arithmetic, binary64 rounding of
      the individual operations is not represented.  [round(x, 2)] rounds
      to the nearest hundredth, ties to the even hundredth.
    - [np.random] is an external library.  Its global generator is an
      abstract deterministic state machine ([RandomState]); the documented
      ranges of [randint], [choice] and [uniform] are collected in
      [RandomStateOk].
    - A [DataFrame] is the list of its rows in index order. *)

From Stdlib Require Import ZArith QArith Qround Qabs List String Ascii Bool Lia.
From Stdlib Require Import Sorting.Sorted Lqa FinFun OrderedTypeEx.
From Stdlib Require Import Sorting.Permutation.
Import ListNotations.

Local Open Scope string_scope.
Local Open Scope list_scope.
Local Open Scope Z_scope.

(** ** Calendar days *)

Module Calendar.

(** [datetime._days_before_year]: days before January 1st of [year]. *)
Definition days_before_year (year : Z) : Z :=
  let y := year - 1 in
  y * 365 + y / 4 - y / 100 + y / 400.

Definition is_leap (year : Z) : bool :=
  (year mod 4 =? 0) && (negb (year mod 100 =? 0) || (year mod 400 =? 0)).

Definition days_in_month (year month : Z) : Z :=
  if month =? 2 then (if is_leap year then 29 else 28)
  else if (month =? 4) || (month =? 6) || (month =? 9) || (month =? 11)
       then 30 else 31.

(** [datetime._days_before_month]: days in [year] before the first day
    of [month]. *)
Definition days_before_month (year month : Z) : Z :=
  fold_left (fun acc m => acc + days_in_month year (Z.of_nat m))
            (seq 1 (Z.to_nat (month - 1))) 0.

(** [datetime(year, month, day)] as an ordinal (January 1st of year 1
    is day 1). *)
Definition datetime (year month day : Z) : Z :=
  days_before_year year + days_before_month year month + day.

(** [pd.date_range(start, end, freq='D')]: every day from [start] to
    [end], both included, in increasing order. *)
Definition date_range (start_ end_ : Z) : list Z :=
  map (fun i => start_ + Z.of_nat i) (seq 0 (Z.to_nat (end_ - start_ + 1))).

End Calendar.

(** ** Rounding to two decimals *)

(** Nearest integer, ties to even (Python's [round]). *)
Definition round_half_even (x : Q) : Z :=
  let f := Qfloor x in
  match (x - inject_Z f ?= 1 # 2)%Q with
  | Lt => f
  | Gt => f + 1
  | Eq => if Z.even f then f else f + 1
  end.

(** [round(x, 2)]. *)
Definition round2 (x : Q) : Q := round_half_even (x * 100) # 100.

(** ** Transaction records *)

Record row : Type := mkRow {
  Date : Z;
  Product : string;
  Category : string;
  Region : string;
  Quantity : Z;
  Unit_Price : Q;
  Revenue : Q
}.

(** [x in xs] on Python lists of strings, [Series.isin] row by row. *)
Definition isin (x : string) (xs : list string) : bool :=
  existsb (String.eqb x) xs.

(** ** The random generator *)

(** The global [np.random] generator: [seed] replaces the whole state,
    every draw returns a value and the next state. *)
Class RandomState : Type := {
  rng_state : Type;
  seed : Z -> rng_state;
  randint : Z -> Z -> rng_state -> Z * rng_state;
  choice : list string -> rng_state -> string * rng_state;
  uniform : Q -> Q -> rng_state -> Q * rng_state
}.

(** Documented ranges of the draws: [randint(low, high)] lies in
    [[low, high)], [choice(a)] is an element of [a], [uniform(low, high)]
    lies in [[low, high)]. *)
Class RandomStateOk (R : RandomState) : Prop := {
  randint_range : forall low high s,
    low < high -> low <= fst (randint low high s) < high;
  choice_In : forall xs s, xs <> [] -> In (fst (choice xs s)) xs;
  uniform_range : forall low high s,
    (low < high)%Q ->
    (low <= fst (uniform low high s))%Q /\ (fst (uniform low high s) < high)%Q
}.

(** Code that draws from the global generator. *)
Definition Rand {R : RandomState} (A : Type) : Type := rng_state -> A * rng_state.

Definition ret {R : RandomState} {A} (a : A) : Rand A := fun s => (a, s).

Definition bind {R : RandomState} {A B} (m : Rand A) (k : A -> Rand B) : Rand B :=
  fun s => let (a, s') := m s in k a s'.

Notation "x <- m ;; k" := (bind m (fun x => k))
  (at level 61, m at next level, right associativity).

(** A [for] loop whose body updates the list [data] and draws. *)
Fixpoint for_each {R : RandomState} {A} (xs : list A)
    (body : A -> list row -> Rand (list row)) (data : list row)
    : Rand (list row) :=
  match xs with
  | [] => ret data
  | x :: xs' => data' <- body x data ;; for_each xs' body data'
  end.

(** [range(n)]. *)
Definition range (n : Z) : list nat := seq 0 (Z.to_nat n).

(** ** [generate_sales_data] *)

Definition start_date_gen : Z := Calendar.datetime 2024 1 1.
Definition end_date_gen : Z := Calendar.datetime 2024 11 24.

Definition products : list string :=
  ["Laptop"; "Smartphone"; "Tablet"; "Headphones"; "Monitor"; "Keyboard";
   "Mouse"; "Webcam"].

Definition regions : list string :=
  ["North America"; "Europe"; "Asia"; "South America"; "Africa"].

Definition categories : list string :=
  ["Electronics"; "Accessories"; "Computers"; "Audio"].

(** Lines 28-39: the category of the product and the price draw. *)
Definition category_and_price {R : RandomState} (product : string)
    : Rand (string * Q) :=
  if isin product ["Laptop"; "Monitor"] then
    price <- uniform 500 2000 ;; ret ("Computers", price)
  else if isin product ["Smartphone"; "Tablet"] then
    price <- uniform 300 1200 ;; ret ("Electronics", price)
  else if isin product ["Headphones"; "Webcam"] then
    price <- uniform 50 400 ;; ret ("Audio", price)
  else
    price <- uniform 20 150 ;; ret ("Accessories", price).

(** Lines 26-52: one transaction of day [date]. *)
Definition transaction {R : RandomState} (date : Z) : Rand row :=
  product <- choice products ;;
  cp <- category_and_price product ;;
  let category := fst cp in
  let price := snd cp in
  quantity <- randint 1 10 ;;
  let revenue := (price * inject_Z quantity)%Q in
  region <- choice regions ;;
  ret {| Date := date;
         Product := product;
         Category := category;
         Region := region;
         Quantity := quantity;
         Unit_Price := round2 price;
         Revenue := round2 revenue |}.

(** Lines 23-52: the two nested loops. *)
Definition fill_log {R : RandomState} (date_range : list Z) : Rand (list row) :=
  for_each date_range
    (fun date data =>
       num_transactions <- randint 5 15 ;;
       for_each (range num_transactions)
         (fun _ data => r <- transaction date ;; ret (data ++ [r]))
         data)
    [].

(** [generate_sales_data()] run from global generator state [g]: the
    state is first replaced by [seed 42], so [g] does not reach the draws. *)
Definition generate_sales_data {R : RandomState} (g : rng_state)
    : list row * rng_state :=
  let s := seed 42 in
  let date_range := Calendar.date_range start_date_gen end_date_gen in
  fill_log date_range s.

(** [@st.cache_data]: the first call runs the function and stores the
    frame, later calls return the stored frame. *)
Definition generate_sales_data_cached {R : RandomState}
    (cache : option (list row)) (g : rng_state)
    : list row * (option (list row) * rng_state) :=
  match cache with
  | Some df => (df, (cache, g))
  | None =>
      let (df, g') := generate_sales_data g in
      (df, (Some df, g'))
  end.

(** ** Sidebar inputs *)

(** The values of the four sidebar widgets. *)
Record selection : Type := mkSelection {
  start_date : Z;
  end_date : Z;
  selected_categories : list string;
  selected_regions : list string;
  selected_products : list string
}.

(** Lines 72-75: [st.date_input] returns a tuple; two dates are the
    range, otherwise its first date is both ends ([None]: [date_range[0]]
    raises [IndexError] on the empty tuple). *)
Definition unpack_date_range (date_range : list Z) : option (Z * Z) :=
  match date_range with
  | [s; e] => Some (s, e)
  | d :: _ => Some (d, d)
  | [] => None
  end.

(** ** Filtering (lines 95-113) *)

(** [df[mask]]: the rows whose mask entry is [True], in index order. *)
Definition getitem_mask (df : list row) (mask : row -> bool) : list row :=
  filter mask df.

Definition filtered_df (df : list row) (sel : selection) : list row :=
  getitem_mask df (fun r =>
    (start_date sel <=? Date r) &&
    (Date r <=? end_date sel) &&
    isin (Category r) (selected_categories sel) &&
    isin (Region r) (selected_regions sel) &&
    isin (Product r) (selected_products sel)).

Definition period_days (sel : selection) : Z :=
  (end_date sel - start_date sel) + 1.

Definition previous_start (sel : selection) : Z :=
  start_date sel - period_days sel.

Definition previous_end (sel : selection) : Z :=
  start_date sel - 1.

Definition previous_df (df : list row) (sel : selection) : list row :=
  getitem_mask df (fun r =>
    (previous_start sel <=? Date r) &&
    (Date r <=? previous_end sel) &&
    isin (Category r) (selected_categories sel) &&
    isin (Region r) (selected_regions sel) &&
    isin (Product r) (selected_products sel)).

(** ** KPIs (lines 115-142) *)

(** [Series.sum()] of a float column and of an integer column. *)
Definition sumQ (xs : list Q) : Q := fold_left Qplus xs 0%Q.
Definition sumZ (xs : list Z) : Z := fold_left Z.add xs 0.

(** [Series.mean()]. *)
Definition meanQ (xs : list Q) : Q := (sumQ xs / inject_Z (Z.of_nat (List.length xs)))%Q.

Definition current_revenue (df : list row) (sel : selection) : Q :=
  sumQ (map Revenue (filtered_df df sel)).

Definition previous_revenue (df : list row) (sel : selection) : Q :=
  sumQ (map Revenue (previous_df df sel)).

(** Lines 118-121 as a function of the two revenues. *)
Definition growth_rate_of (current previous : Q) : Q :=
  if Qlt_le_dec 0 previous
  then (((current - previous) / previous) * 100)%Q
  else 0%Q.

Definition growth_rate (df : list row) (sel : selection) : Q :=
  growth_rate_of (current_revenue df sel) (previous_revenue df sel).

Definition total_revenue (df : list row) (sel : selection) : Q :=
  sumQ (map Revenue (filtered_df df sel)).

Definition total_transactions (df : list row) (sel : selection) : Z :=
  Z.of_nat (List.length (filtered_df df sel)).

Definition avg_transaction (df : list row) (sel : selection) : Q :=
  if 0 <? Z.of_nat (List.length (filtered_df df sel))
  then meanQ (map Revenue (filtered_df df sel))
  else 0%Q.

Definition total_quantity (df : list row) (sel : selection) : Z :=
  sumZ (map Quantity (filtered_df df sel)).

(** ** Grouped tables (lines 150-251) *)

Section GroupBy.

Context {K V : Type}.
Variable cmp : K -> K -> comparison.
Variable add : V -> V -> V.

(** Add value [v] to the group of key [k]; groups are kept in
    increasing key order ([groupby] sorts the group keys). *)
Fixpoint group_add (k : K) (v : V) (acc : list (K * V)) : list (K * V) :=
  match acc with
  | [] => [(k, v)]
  | (k', v') :: acc' =>
      match cmp k k' with
      | Eq => (k', add v' v) :: acc'
      | Lt => (k, v) :: acc
      | Gt => (k', v') :: group_add k v acc'
      end
  end.

(** [df.groupby(key)[val].sum()]: one entry per key, the values of
    the key's rows added in index order. *)
Definition groupby_sum (key : row -> K) (val : row -> V) (df : list row)
    : list (K * V) :=
  fold_left (fun acc r => group_add (key r) (val r) acc) df [].

End GroupBy.

Section SortValues.

Context {E : Type}.
Variable by_ : E -> Q.

Fixpoint insert_desc (x : E) (l : list E) : list E :=
  match l with
  | [] => [x]
  | y :: l' =>
      if Qle_bool (by_ y) (by_ x) then x :: l else y :: insert_desc x l'
  end.

(** [sort_values(by, ascending=False)].  The order pandas gives to
    rows with equal keys is not specified; here they keep their
    relative order. *)
Definition sort_values_desc (l : list E) : list E :=
  fold_right insert_desc [] l.

End SortValues.

(** [.head(n)]. *)
Definition head {E : Type} (n : nat) (l : list E) : list E := firstn n l.

Definition add_qty_rev (a b : Z * Q) : Z * Q :=
  (fst a + fst b, (snd a + snd b)%Q).

Definition add_rev_qty (a b : Q * Z) : Q * Z :=
  ((fst a + fst b)%Q, snd a + snd b).

(** Line 150. *)
Definition daily_revenue (df : list row) (sel : selection) : list (Z * Q) :=
  groupby_sum Z.compare Qplus Date Revenue (filtered_df df sel).

(** Line 163. *)
Definition category_revenue (df : list row) (sel : selection)
    : list (string * Q) :=
  groupby_sum String.compare Qplus Category Revenue (filtered_df df sel).

(** Line 176. *)
Definition region_revenue (df : list row) (sel : selection)
    : list (string * Q) :=
  sort_values_desc snd
    (groupby_sum String.compare Qplus Region Revenue (filtered_df df sel)).

(** Line 190. *)
Definition product_revenue (df : list row) (sel : selection)
    : list (string * Q) :=
  head 8 (sort_values_desc snd
    (groupby_sum String.compare Qplus Product Revenue (filtered_df df sel))).

(** Lines 237-240: columns [Quantity] and [Revenue] summed per product
    (before line 241 turns the revenue column into display text). *)
Definition top_products (df : list row) (sel : selection)
    : list (string * (Z * Q)) :=
  head 5 (sort_values_desc (fun e => snd (snd e))
    (groupby_sum String.compare add_qty_rev Product
       (fun r => (Quantity r, Revenue r)) (filtered_df df sel))).

(** Lines 246-249. *)
Definition top_regions (df : list row) (sel : selection)
    : list (string * (Q * Z)) :=
  head 5 (sort_values_desc (fun e => fst (snd e))
    (groupby_sum String.compare add_rev_qty Region
       (fun r => (Revenue r, Quantity r)) (filtered_df df sel))).

(** ** The frames as objects *)

(** The script binds names to frame objects; [df[mask]], [.copy()] and
    [.sort_values()] create a new object, [frame[col] = ...] writes into
    an existing one.  An object is named by its position in the heap. *)
Definition heap : Type := list (list row).

Definition alloc (h : heap) (frame : list row) : heap * nat :=
  (h ++ [frame], List.length h).

Definition deref (h : heap) (id : nat) : list row := nth id h [].

Fixpoint assign (h : heap) (id : nat) (frame : list row) : heap :=
  match h, id with
  | [], _ => []
  | _ :: h', O => frame :: h'
  | f :: h', S id' => f :: assign h' id' frame
  end.

(** The names bound by the script, as positions in the heap. *)
Record script_vars : Type := mkVars {
  v_heap : heap;
  v_df : nat;
  v_filtered_df : nat;
  v_previous_df : nat;
  v_display_df : nat
}.

(** The statements of the script that create or write frames derived from
    the log: line 57 ([df]), lines 95-101 ([filtered_df]), lines 107-113
    ([previous_df]), line 207 ([display_df = filtered_df.copy()]), line 208
    (the [Date] column of [display_df] overwritten in place; [strftime] is
    what the write does to a row) and line 209 ([display_df] rebound to a
    sorted frame; [sort_display] is that sort). *)
Definition run_script (log : list row) (sel : selection)
    (strftime : row -> row) (sort_display : list row -> list row)
    : script_vars :=
  let '(h, df) := alloc [] log in
  let '(h, filtered) := alloc h (filtered_df (deref h df) sel) in
  let '(h, previous) := alloc h (previous_df (deref h df) sel) in
  let '(h, display) := alloc h (deref h filtered) in
  let h := assign h display (map strftime (deref h display)) in
  let '(h, display) := alloc h (sort_display (deref h display)) in
  {| v_heap := h;
     v_df := df;
     v_filtered_df := filtered;
     v_previous_df := previous;
     v_display_df := display |}.

(** ** A concrete generator *)

(** A linear congruential generator that meets [RandomStateOk]; it is the
    generator at which the properties below are instantiated. *)
Module Lcg.

Definition modulus : positive := 2147483648.

Definition next (s : Z) : Z := (1103515245 * s + 12345) mod Zpos modulus.

(** A number in [[0, n)] from the high bits of the state. *)
Definition pick (s n : Z) : Z := (s / 65536) mod n.

(** A fraction in [[0, 1)]. *)
Definition fraction (s : Z) : Q := (s mod Zpos modulus) # modulus.

Definition lcg : RandomState :=
  {| rng_state := Z;
     seed := fun n => n;
     randint := fun low high s => (low + pick s (high - low), next s);
     choice := fun xs s =>
       (nth (Z.to_nat (pick s (Z.of_nat (List.length xs)))) xs "", next s);
     uniform := fun low high s =>
       ((low + (high - low) * fraction s)%Q, next s) |}.

End Lcg.

(** ** Vocabulary of the properties *)

(** The product-to-category lookup that lines 28-39 implement. *)
Definition category_of (product : string) : string :=
  if isin product ["Laptop"; "Monitor"] then "Computers"
  else if isin product ["Smartphone"; "Tablet"] then "Electronics"
  else if isin product ["Headphones"; "Webcam"] then "Audio"
  else "Accessories".

(** The bounds of the price draw that lines 28-39 pair with each
    category. *)
Definition price_range_of (category : string) : Q * Q :=
  if String.eqb category "Computers" then (500, 2000)%Q
  else if String.eqb category "Electronics" then (300, 1200)%Q
  else if String.eqb category "Audio" then (50, 400)%Q
  else (20, 150)%Q.

(** Number of records of day [d]. *)
Definition count_date (d : Z) (df : list row) : Z :=
  Z.of_nat (List.length (filter (fun r => Date r =? d) df)).

(** The revenue is the rounded product of the stored quantity and the
    stored unit price. *)
Definition revenue_identity (r : row) : Prop :=
  (Revenue r == round2 (inject_Z (Quantity r) * Unit_Price r))%Q.

(** Record [r] was built from the unrounded price [price]. *)
Definition built_from_price (r : row) (price : Q) : Prop :=
  Unit_Price r = round2 price /\
  Revenue r = round2 (price * inject_Z (Quantity r)).

(** [l1] is [l2] with some elements left out. *)
Inductive subseq {A : Type} : list A -> list A -> Prop :=
| subseq_nil : subseq [] []
| subseq_skip : forall x l1 l2, subseq l1 l2 -> subseq l1 (x :: l2)
| subseq_keep : forall x l1 l2, subseq l1 l2 -> subseq (x :: l1) (x :: l2).

(** Day [d] lies in the window from [a] to [b], both included. *)
Definition in_window (a b d : Z) : Prop := a <= d <= b.

(** What the four masks of [filtered_df] say about one record. *)
Definition matches (sel : selection) (r : row) : Prop :=
  in_window (start_date sel) (end_date sel) (Date r) /\
  In (Category r) (selected_categories sel) /\
  In (Region r) (selected_regions sel) /\
  In (Product r) (selected_products sel).

(** The selection with the date window moved to the previous period. *)
Definition previous_selection (sel : selection) : selection :=
  {| start_date := previous_start sel;
     end_date := previous_end sel;
     selected_categories := selected_categories sel;
     selected_regions := selected_regions sel;
     selected_products := selected_products sel |}.

(** Descending order of a numeric column. *)
Definition sorted_desc {E : Type} (by_ : E -> Q) (l : list E) : Prop :=
  StronglySorted (fun a b => (by_ b <= by_ a)%Q) l.

(** What lines 26-52 guarantee of a record generated for day [date]. *)
Definition drawn_ok (date : Z) (r : row) : Prop :=
  Date r = date /\
  In (Product r) products /\
  Category r = category_of (Product r) /\
  In (Region r) regions /\
  1 <= Quantity r < 10 /\
  exists price : Q,
    (fst (price_range_of (Category r)) <= price)%Q /\
    (price < snd (price_range_of (Category r)))%Q /\
    built_from_price r price.

(** The group keys increase strictly along a grouped table. *)
Definition keys_sorted {K V : Type} (cmp : K -> K -> comparison)
    (acc : list (K * V)) : Prop :=
  StronglySorted (fun a b => cmp (fst a) (fst b) = Lt) acc.

(** Sum of column [pr] over the entries of key [k] of a grouped table. *)
Fixpoint entry_total {K V : Type} (eqb : K -> K -> bool) (pr : V -> Q)
    (k : K) (acc : list (K * V)) : Q :=
  match acc with
  | [] => 0%Q
  | (k', v') :: acc' =>
      ((if eqb k' k then pr v' else 0) + entry_total eqb pr k acc')%Q
  end.

(** The records of product [p]. *)
Definition of_product (p : string) (df : list row) : list row :=
  filter (fun r => String.eqb (Product r) p) df.

(** A small log and a selection used to run the pipeline. *)
Definition sample_log : list row :=
  [ mkRow 738900 "Mouse" "Accessories" "Asia" 3 (2550 # 100) (7650 # 100);
    mkRow 738905 "Laptop" "Computers" "Europe" 1 (120000 # 100) (120000 # 100);
    mkRow 738912 "Mouse" "Accessories" "Asia" 1 (3000 # 100) (3000 # 100);
    mkRow 738913 "Laptop" "Computers" "Asia" 2 (90000 # 100) (180000 # 100);
    mkRow 738915 "Mouse" "Accessories" "Europe" 4 (2500 # 100) (10000 # 100);
    mkRow 738930 "Tablet" "Electronics" "Asia" 1 (40000 # 100) (40000 # 100) ].

Definition sample_selection : selection :=
  mkSelection 738910 738919 ["Accessories"; "Computers"] ["Asia"; "Europe"]
    ["Mouse"; "Laptop"; "Tablet"].

(** ** Sidebar widgets (lines 62-93) *)

(** [Series.unique()]: the distinct values, in order of first appearance. *)
Fixpoint unique (xs : list string) : list string :=
  match xs with
  | [] => []
  | x :: xs' => x :: filter (fun y => negb (String.eqb x y)) (unique xs')
  end.

(** One step of Python's [sorted] on strings: [x] goes in front of the
    first element that is not smaller. *)
Fixpoint insert_sorted (x : string) (l : list string) : list string :=
  match l with
  | [] => [x]
  | y :: l' =>
      match String.compare x y with
      | Gt => y :: insert_sorted x l'
      | _ => x :: l
      end
  end.

(** [sorted(xs)] on strings: increasing code-point order. *)
Definition sorted (xs : list string) : list string :=
  fold_right insert_sorted [] xs.

(** [Series.min()] and [Series.max()] of the [Date] column ([None]: the
    column is empty and pandas answers [NaT]). *)
Definition series_min (xs : list Z) : option Z :=
  match xs with
  | [] => None
  | x :: xs' => Some (fold_left Z.min xs' x)
  end.

Definition series_max (xs : list Z) : option Z :=
  match xs with
  | [] => None
  | x :: xs' => Some (fold_left Z.max xs' x)
  end.

(** The options (and the default) of a [st.multiselect] of lines 77-93. *)
Definition multiselect_options (column : list string) : list string :=
  sorted (unique column).

(** What the sidebar returns before the user touches a widget: the date
    input holds [(df['Date'].min(), df['Date'].max())], every multiselect
    holds its default, which is all of its options. *)
Definition default_selection (df : list row) : option selection :=
  match series_min (map Date df), series_max (map Date df) with
  | Some lo, Some hi =>
      match unpack_date_range [lo; hi] with
      | Some (s, e) =>
          Some {| start_date := s;
                  end_date := e;
                  selected_categories := multiselect_options (map Category df);
                  selected_regions := multiselect_options (map Region df);
                  selected_products := multiselect_options (map Product df) |}
      | None => None
      end
  | _, _ => None
  end.

(** ** The detail table (lines 207-209) *)

(** The year, month and day of an ordinal (the inverse of
    [Calendar.datetime], computed as [datetime._ord2ymd] does, from the
    400-, 100-, 4- and 1-year cycles). *)
Definition ord2ymd (ordinal : Z) : Z * Z * Z :=
  let n := ordinal - 1 in
  let n400 := n / 146097 in
  let n := n mod 146097 in
  let n100 := n / 36524 in
  let n := n mod 36524 in
  let n4 := n / 1461 in
  let n := n mod 1461 in
  let n1 := n / 365 in
  let n := n mod 365 in
  let year := n400 * 400 + 1 + n100 * 100 + n4 * 4 + n1 in
  if (n1 =? 4) || (n100 =? 4) then (year - 1, 12, 31)
  else
    let month := Z.shiftr (n + 50) 5 in
    let preceding := Calendar.days_before_month year month in
    if n <? preceding
    then (year, month - 1,
          n - (preceding - Calendar.days_in_month year (month - 1)) + 1)
    else (year, month, n - preceding + 1).

(** A decimal digit as a character. *)
Definition digit (d : Z) : ascii := ascii_of_nat (48 + Z.to_nat (d mod 10)).

(** [%02d] and [%04d]. *)
Definition pad2 (n : Z) : string :=
  String (digit (n / 10)) (String (digit n) EmptyString).

Definition pad4 (n : Z) : string :=
  String (digit (n / 1000)) (String (digit (n / 100)) (pad2 n)).

(** [strftime('%Y-%m-%d')] of a day. *)
Definition strftime (d : Z) : string :=
  let '(year, month, day) := ord2ymd d in
  (pad4 year ++ "-" ++ pad2 month ++ "-" ++ pad2 day)%string.

(** A row of the detail table: the [Date] column holds text. *)
Record display_row : Type := mkDisplayRow {
  d_Date : string;
  d_Product : string;
  d_Category : string;
  d_Region : string;
  d_Quantity : Z;
  d_Unit_Price : Q;
  d_Revenue : Q
}.

(** Line 208 on one row. *)
Definition format_date (r : row) : display_row :=
  {| d_Date := strftime (Date r);
     d_Product := Product r;
     d_Category := Category r;
     d_Region := Region r;
     d_Quantity := Quantity r;
     d_Unit_Price := Unit_Price r;
     d_Revenue := Revenue r |}.

Section SortText.

Context {E : Type}.
Variable by_ : E -> string.

Fixpoint insert_text_desc (x : E) (l : list E) : list E :=
  match l with
  | [] => [x]
  | y :: l' =>
      match String.compare (by_ y) (by_ x) with
      | Gt => y :: insert_text_desc x l'
      | _ => x :: l
      end
  end.

(** [sort_values(by, ascending=False)] on a text column; rows with equal
    text keep their relative order here. *)
Definition sort_text_desc (l : list E) : list E :=
  fold_right insert_text_desc [] l.

End SortText.

(** Lines 207-209. *)
Definition display_df (df : list row) (sel : selection) : list display_row :=
  sort_text_desc d_Date (map format_date (filtered_df df sel)).

(** Every text is smaller than the next one. *)
Fixpoint increasingb (l : list string) : bool :=
  match l with
  | x :: ((y :: _) as l') =>
      match String.compare x y with
      | Lt => increasingb l'
      | _ => false
      end
  | _ => true
  end.

(** ** Further vocabulary *)


(** Selection [inner] asks for no more than selection [outer]. *)
Definition narrower (inner outer : selection) : Prop :=
  start_date outer <= start_date inner /\
  end_date inner <= end_date outer /\
  incl (selected_categories inner) (selected_categories outer) /\
  incl (selected_regions inner) (selected_regions outer) /\
  incl (selected_products inner) (selected_products outer).


(** The records are in chronological order. *)
Definition date_ordered (df : list row) : Prop :=
  StronglySorted (fun r r' => Date r <= Date r') df.

(** The mask of [filtered_df] on one record. *)
Definition matchesb (sel : selection) (r : row) : bool :=
  (start_date sel <=? Date r) &&
  (Date r <=? end_date sel) &&
  isin (Category r) (selected_categories sel) &&
  isin (Region r) (selected_regions sel) &&
  isin (Product r) (selected_products sel).

(** A log with six products, and the selection that keeps all of it. *)
Definition six_product_log : list row :=
  [ mkRow 738900 "Laptop" "Computers" "Asia" 1 (100000 # 100) (100000 # 100);
    mkRow 738901 "Mouse" "Accessories" "Asia" 1 (2000 # 100) (2000 # 100);
    mkRow 738902 "Monitor" "Computers" "Europe" 1 (80000 # 100) (80000 # 100);
    mkRow 738903 "Smartphone" "Electronics" "Asia" 1 (70000 # 100) (70000 # 100);
    mkRow 738904 "Tablet" "Electronics" "Africa" 1 (60000 # 100) (60000 # 100);
    mkRow 738905 "Headphones" "Audio" "Asia" 1 (10000 # 100) (10000 # 100) ].

Definition whole_selection : selection :=
  mkSelection 738886 739214 categories regions products.

(** * Proofs *)

(** ** Rounding *)

Lemma round_half_even_error (x : Q) :
  (Qabs (inject_Z (round_half_even x) - x) <= 1 # 2)%Q.
Proof.
  unfold round_half_even.
  pose proof (Qfloor_le x) as Hlo.
  pose proof (Qlt_floor x) as Hhi.
  rewrite inject_Z_plus in Hhi. change (inject_Z 1) with 1%Q in Hhi.
  apply Qabs_Qle_condition.
  destruct (x - inject_Z (Qfloor x) ?= 1 # 2)%Q eqn:Hc.
  - apply Qeq_alt in Hc.
    destruct (Z.even (Qfloor x));
      [| rewrite inject_Z_plus; change (inject_Z 1) with 1%Q]; split; lra.
  - apply Qlt_alt in Hc. split; lra.
  - apply Qgt_alt in Hc. rewrite inject_Z_plus.
    change (inject_Z 1) with 1%Q. split; lra.
Qed.

Lemma round2_error (x : Q) : (Qabs (round2 x - x) <= 1 # 200)%Q.
Proof.
  unfold round2.
  pose proof (round_half_even_error (x * 100)) as H.
  apply Qabs_Qle_condition in H. apply Qabs_Qle_condition.
  rewrite (Qmake_Qdiv (round_half_even (x * 100)) 100).
  set (z := inject_Z (round_half_even (x * 100))) in *.
  assert (Hz : (z / inject_Z (Zpos 100) == z * (1 # 100))%Q) by (field; discriminate).
  rewrite Hz. split; lra.
Qed.

Lemma round_half_even_bounds (x : Q) :
  Qfloor x <= round_half_even x <= Qfloor x + 1.
Proof.
  unfold round_half_even.
  destruct (x - inject_Z (Qfloor x) ?= 1 # 2)%Q;
    [destruct (Z.even (Qfloor x)) | |]; lia.
Qed.

Lemma round_half_even_mono (x y : Q) :
  (x <= y)%Q -> round_half_even x <= round_half_even y.
Proof.
  intros Hxy.
  pose proof (Qfloor_resp_le x y Hxy) as Hf.
  pose proof (round_half_even_bounds x) as Hx.
  pose proof (round_half_even_bounds y) as Hy.
  destruct (Z.eq_dec (Qfloor x) (Qfloor y)) as [Heq | Hne]; [| lia].
  unfold round_half_even in *. rewrite <- Heq in *.
  destruct (x - inject_Z (Qfloor x) ?= 1 # 2)%Q eqn:Hcx;
    destruct (y - inject_Z (Qfloor x) ?= 1 # 2)%Q eqn:Hcy;
    try (destruct (Z.even (Qfloor x))); try lia; exfalso;
    repeat match goal with
    | H : (_ ?= _)%Q = Eq |- _ => apply Qeq_alt in H
    | H : (_ ?= _)%Q = Lt |- _ => apply Qlt_alt in H
    | H : (_ ?= _)%Q = Gt |- _ => apply Qgt_alt in H
    end; lra.
Qed.

Lemma round2_mono (x y : Q) : (x <= y)%Q -> (round2 x <= round2 y)%Q.
Proof.
  intros Hxy. unfold round2, Qle. simpl.
  assert (H : round_half_even (x * 100) <= round_half_even (y * 100))
    by (apply round_half_even_mono; lra).
  lia.
Qed.

Example round2_ties_to_even :
  (round2 (125 # 1000) == (12 # 100))%Q /\
  (round2 (375 # 1000) == (38 # 100))%Q /\
  (round2 (100004 # 1000) == 100)%Q /\
  (round2 (900036 # 1000) == (90004 # 100))%Q.
Proof. vm_compute. repeat split. Qed.

Example datetime_2024 :
  Calendar.datetime 2024 1 1 = 738886 /\
  Calendar.datetime 2024 11 24 = 739214 /\
  List.length (Calendar.date_range start_date_gen end_date_gen) = 329%nat.
Proof. vm_compute. repeat split. Qed.

(** ** The concrete generator meets the documented ranges *)

Lemma lcg_fraction_range (s : Z) :
  (0 <= Lcg.fraction s)%Q /\ (Lcg.fraction s < 1)%Q.
Proof.
  unfold Lcg.fraction, Qle, Qlt. simpl.
  pose proof (Z.mod_pos_bound s (Zpos Lcg.modulus) eq_refl). lia.
Qed.

Lemma lcg_ok : RandomStateOk Lcg.lcg.
Proof.
  constructor; simpl.
  - intros low high s H. unfold Lcg.pick.
    pose proof (Z.mod_pos_bound (s / 65536) (high - low)). lia.
  - intros xs s Hne. apply nth_In.
    assert (0 < Z.of_nat (List.length xs)) by (destruct xs; [congruence | simpl; lia]).
    unfold Lcg.pick.
    pose proof (Z.mod_pos_bound (s / 65536) (Z.of_nat (List.length xs))). lia.
  - intros low high s H.
    destruct (lcg_fraction_range s) as [H0 H1].
    set (f := Lcg.fraction s) in *.
    split.
    + assert (0 <= (high - low) * f)%Q by (apply Qmult_le_0_compat; lra). lra.
    + assert ((high - low) * f < (high - low) * 1)%Q
        by (apply Qmult_lt_l; lra).
      lra.
Qed.

(** ** The generator *)

Lemma count_date_app (d : Z) (l1 l2 : list row) :
  count_date d (l1 ++ l2) = count_date d l1 + count_date d l2.
Proof.
  unfold count_date. rewrite filter_app, length_app. lia.
Qed.

Lemma count_date_all (d : Z) (l : list row) :
  Forall (fun r => Date r = d) l -> count_date d l = Z.of_nat (List.length l).
Proof.
  unfold count_date. induction 1 as [| r l Hr _ IH]; simpl; [reflexivity |].
  rewrite Hr, Z.eqb_refl. simpl. lia.
Qed.

Lemma count_date_none (d : Z) (l : list row) :
  Forall (fun r => Date r <> d) l -> count_date d l = 0.
Proof.
  unfold count_date. induction 1 as [| r l Hr _ IH]; simpl; [reflexivity |].
  apply Z.eqb_neq in Hr. rewrite Hr. exact IH.
Qed.

Lemma date_range_In (a b d : Z) :
  In d (Calendar.date_range a b) <-> a <= d <= b.
Proof.
  unfold Calendar.date_range. rewrite in_map_iff. split.
  - intros [i [<- Hi]]. apply in_seq in Hi. lia.
  - intros H. exists (Z.to_nat (d - a)). split; [lia |].
    apply in_seq. lia.
Qed.

Lemma date_range_NoDup (a b : Z) : NoDup (Calendar.date_range a b).
Proof.
  unfold Calendar.date_range. apply Injective_map_NoDup.
  - intros i j H. lia.
  - apply seq_NoDup.
Qed.

Lemma date_range_length (a b : Z) :
  a <= b + 1 -> Z.of_nat (List.length (Calendar.date_range a b)) = b - a + 1.
Proof.
  intros H. unfold Calendar.date_range. rewrite length_map, length_seq. lia.
Qed.

Section GeneratorProps.

Context {R : RandomState} (ok : RandomStateOk R).

Lemma category_and_price_spec (product : string) (s : rng_state) :
  let cp := fst (category_and_price product s) in
  fst cp = category_of product /\
  (fst (price_range_of (fst cp)) <= snd cp)%Q /\
  (snd cp < snd (price_range_of (fst cp)))%Q.
Proof.
  unfold category_and_price, category_of.
  destruct (isin product ["Laptop"; "Monitor"]);
    [| destruct (isin product ["Smartphone"; "Tablet"]);
       [| destruct (isin product ["Headphones"; "Webcam"])]];
    unfold bind, ret; simpl;
    match goal with
    | |- context [uniform ?lo ?hi s] =>
        pose proof (uniform_range lo hi s eq_refl) as [Hlo Hhi];
        destruct (uniform lo hi s) as [price s']
    end; simpl in *; auto.
Qed.

Lemma transaction_spec (date : Z) (s : rng_state) :
  drawn_ok date (fst (transaction date s)).
Proof.
  unfold transaction, bind, ret.
  pose proof (choice_In products s ltac:(discriminate)) as Hp.
  destruct (choice products s) as [product s1]. simpl in Hp.
  pose proof (category_and_price_spec product s1) as Hcp.
  destruct (category_and_price product s1) as [[category price] s2].
  simpl in Hcp. destruct Hcp as [Hcat [Hlo Hhi]].
  pose proof (randint_range 1 10 s2 eq_refl) as Hq.
  destruct (randint 1 10 s2) as [quantity s3]. simpl in Hq.
  pose proof (choice_In regions s3 ltac:(discriminate)) as Hr.
  destruct (choice regions s3) as [region s4]. simpl in Hr.
  unfold drawn_ok, built_from_price. simpl.
  repeat split; auto; try lia.
  exists price. repeat split; auto.
Qed.

(** The inner loop appends [length xs] records of day [date]. *)
Lemma inner_loop_spec (date : Z) (xs : list nat) :
  forall (data : list row) (s : rng_state),
  exists rows,
    fst (for_each xs
           (fun _ data => r <- transaction date ;; ret (data ++ [r]))
           data s) = data ++ rows /\
    List.length rows = List.length xs /\
    Forall (drawn_ok date) rows.
Proof.
  induction xs as [| x xs IH]; intros data s; simpl.
  - exists []. rewrite app_nil_r. auto.
  - unfold bind at 1. unfold bind at 1, ret at 1.
    pose proof (transaction_spec date s) as Hr.
    destruct (transaction date s) as [r s1]. simpl in Hr.
    destruct (IH (data ++ [r]) s1) as [rows [Heq [Hlen Hall]]].
    exists (r :: rows). rewrite Heq, <- app_assoc. simpl. auto.
Qed.

(** The outer loop appends, for every day of [ds], between 5 and 14
    records of that day. *)
Lemma fill_loop_spec (ds : list Z) :
  forall (data : list row) (s : rng_state),
  exists rows,
    fst (for_each ds
           (fun date data =>
              num_transactions <- randint 5 15 ;;
              for_each (range num_transactions)
                (fun _ data => r <- transaction date ;; ret (data ++ [r]))
                data)
           data s) = data ++ rows /\
    Forall (fun r => In (Date r) ds /\ drawn_ok (Date r) r) rows /\
    (NoDup ds -> forall d, In d ds -> 5 <= count_date d rows < 15).
Proof.
  induction ds as [| d0 ds IH]; intros data s; simpl.
  - exists []. rewrite app_nil_r. repeat split; auto. contradiction.
  - unfold bind at 1. unfold bind at 1.
    pose proof (randint_range 5 15 s eq_refl) as Hn.
    destruct (randint 5 15 s) as [n s1]. simpl in Hn.
    destruct (inner_loop_spec d0 (range n) data s1) as [day [Heq [Hlen Hday]]].
    destruct (for_each (range n) _ data s1) as [data1 s2]. simpl in Heq.
    subst data1.
    destruct (IH (data ++ day) s2) as [rest [Heq2 [Hall Hcount]]].
    exists (day ++ rest). rewrite Heq2, app_assoc. split; [reflexivity |].
    assert (Hdates : Forall (fun r => Date r = d0) day).
    { eapply Forall_impl; [| exact Hday]. intros r Hr. apply Hr. }
    split.
    + apply Forall_app. split.
      * eapply Forall_impl; [| exact Hday]. intros r Hr.
        assert (Date r = d0) as -> by apply Hr. auto.
      * eapply Forall_impl; [| exact Hall]. intros r [Hin Hr]. auto.
    + intros Hnd d Hd. inversion Hnd as [| ? ? Hnotin Hnd']; subst.
      rewrite count_date_app.
      unfold range in Hlen. rewrite length_seq in Hlen.
      destruct Hd as [<- | Hd].
      * rewrite (count_date_all d0 day Hdates), Hlen.
        rewrite (count_date_none d0 rest); [lia |].
        eapply Forall_impl; [| exact Hall]. intros r [Hin _] Heq.
        congruence.
      * rewrite (count_date_none d day).
        -- specialize (Hcount Hnd' d Hd). lia.
        -- eapply Forall_impl; [| exact Hdates]. intros r Hr Heq.
           congruence.
Qed.

Lemma generate_sales_data_spec (g : rng_state) :
  let df := fst (generate_sales_data g) in
  Forall (fun r => in_window start_date_gen end_date_gen (Date r) /\
                   drawn_ok (Date r) r) df /\
  (forall d, in_window start_date_gen end_date_gen d ->
             5 <= count_date d df < 15).
Proof.
  unfold generate_sales_data, fill_log.
  destruct (fill_loop_spec (Calendar.date_range start_date_gen end_date_gen)
              [] (seed 42)) as [rows [Heq [Hall Hcount]]].
  cbv zeta. rewrite Heq. simpl. split.
  - eapply Forall_impl; [| exact Hall]. intros r [Hin Hr].
    apply date_range_In in Hin. split; assumption.
  - intros d Hd. apply Hcount; [apply date_range_NoDup |].
    apply date_range_In. exact Hd.
Qed.

End GeneratorProps.

(** ** Filtering *)

Lemma isin_In (x : string) (xs : list string) : isin x xs = true <-> In x xs.
Proof.
  unfold isin. rewrite existsb_exists. split.
  - intros [y [Hy Heq]]. apply String.eqb_eq in Heq. subst. exact Hy.
  - intros H. exists x. split; [exact H | apply String.eqb_refl].
Qed.

Lemma filtered_df_In (df : list row) (sel : selection) (r : row) :
  In r (filtered_df df sel) <-> In r df /\ matches sel r.
Proof.
  unfold filtered_df, getitem_mask, matches, in_window.
  rewrite filter_In, !andb_true_iff, !isin_In, !Z.leb_le. tauto.
Qed.

Lemma previous_df_as_filtered (df : list row) (sel : selection) :
  previous_df df sel = filtered_df df (previous_selection sel).
Proof. reflexivity. Qed.

Lemma isin_nil (x : string) : isin x [] = false.
Proof. reflexivity. Qed.

Lemma filter_none {A : Type} (f : A -> bool) (l : list A) :
  (forall x, In x l -> f x = false) -> filter f l = [].
Proof.
  induction l as [| a l IH]; intros H; simpl; [reflexivity |].
  rewrite (H a (or_introl eq_refl)). apply IH. intros x Hx.
  apply H. right. exact Hx.
Qed.

Lemma empty_selection_filtered (df : list row) (sel : selection) :
  selected_categories sel = [] \/ selected_regions sel = [] \/
  selected_products sel = [] ->
  filtered_df df sel = [] /\ previous_df df sel = [].
Proof.
  intros H. unfold filtered_df, previous_df, getitem_mask.
  split; apply filter_none; intros r _;
    destruct H as [H | [H | H]]; rewrite H, isin_nil;
    rewrite ?andb_false_r; reflexivity.
Qed.

Lemma subseq_filter {A : Type} (f : A -> bool) (l : list A) :
  subseq (filter f l) l.
Proof.
  induction l as [| a l IH]; simpl.
  - constructor.
  - destruct (f a); constructor; exact IH.
Qed.

Lemma subseq_In {A : Type} (l1 l2 : list A) :
  subseq l1 l2 -> forall x, In x l1 -> In x l2.
Proof.
  induction 1 as [| y l1 l2 _ IH | y l1 l2 _ IH]; intros x Hx.
  - exact Hx.
  - right. apply IH. exact Hx.
  - destruct Hx as [-> | Hx]; [left; reflexivity | right; apply IH; exact Hx].
Qed.

(** ** Sums *)

Lemma fold_left_Qplus (l : list Q) (a : Q) :
  (fold_left Qplus l a == a + sumQ l)%Q.
Proof.
  unfold sumQ. revert a. induction l as [| x l IH]; intros a; simpl.
  - ring.
  - rewrite (IH (a + x)%Q), (IH (0 + x)%Q). ring.
Qed.

Lemma sumQ_cons (x : Q) (l : list Q) : (sumQ (x :: l) == x + sumQ l)%Q.
Proof.
  unfold sumQ at 1. simpl. rewrite fold_left_Qplus. ring.
Qed.

Lemma sumQ_app (l1 l2 : list Q) : (sumQ (l1 ++ l2) == sumQ l1 + sumQ l2)%Q.
Proof.
  induction l1 as [| x l1 IH]; simpl.
  - unfold sumQ at 2. simpl. ring.
  - rewrite !sumQ_cons, IH. ring.
Qed.

Lemma fold_left_Zplus (l : list Z) (a : Z) :
  fold_left Z.add l a = a + sumZ l.
Proof.
  unfold sumZ. revert a. induction l as [| x l IH]; intros a; simpl.
  - lia.
  - rewrite (IH (a + x)), (IH x). lia.
Qed.

Lemma sumQ_inject_Z (l : list Z) :
  (sumQ (map inject_Z l) == inject_Z (sumZ l))%Q.
Proof.
  induction l as [| x l IH].
  - reflexivity.
  - simpl map. rewrite sumQ_cons, IH. unfold sumZ at 2. simpl.
    rewrite fold_left_Zplus, <- inject_Z_plus. reflexivity.
Qed.

(** ** Sorting and truncation *)

Lemma head_In {E : Type} (n : nat) (z : E) (l : list E) :
  In z (head n l) -> In z l.
Proof.
  unfold head. revert l.
  induction n as [| n IH]; intros [| y l]; simpl; try tauto.
  intros [<- | H]; [left; reflexivity | right; apply IH; exact H].
Qed.

Section SortProps.

Context {E : Type} (by_ : E -> Q).

Lemma insert_desc_In (x z : E) (l : list E) :
  In z (insert_desc by_ x l) -> z = x \/ In z l.
Proof.
  induction l as [| y l IH]; simpl.
  - intros [<- | []]. left. reflexivity.
  - destruct (Qle_bool (by_ y) (by_ x)); simpl.
    + intros [<- | H]; [left; reflexivity | right; exact H].
    + intros [<- | H]; [right; left; reflexivity |].
      destruct (IH H) as [-> | H']; [left | right; right]; auto.
Qed.

Lemma insert_desc_sorted (x : E) (l : list E) :
  sorted_desc by_ l -> sorted_desc by_ (insert_desc by_ x l).
Proof.
  unfold sorted_desc.
  induction 1 as [| y l Hs IH Hy]; simpl.
  - constructor; constructor.
  - destruct (Qle_bool (by_ y) (by_ x)) eqn:Hc.
    + apply Qle_bool_iff in Hc.
      constructor; [constructor; assumption |].
      constructor; [exact Hc |].
      eapply Forall_impl; [| exact Hy]. intros z Hz. simpl in Hz.
      eapply Qle_trans; eassumption.
    + assert (Hlt : (by_ x <= by_ y)%Q).
      { apply Qlt_le_weak, Qnot_le_lt. intros Hle.
        apply Qle_bool_iff in Hle. congruence. }
      constructor; [exact IH |].
      apply Forall_forall. intros z Hz.
      destruct (insert_desc_In _ _ _ Hz) as [-> | Hz']; [exact Hlt |].
      rewrite Forall_forall in Hy. apply Hy. exact Hz'.
Qed.

Lemma sort_values_desc_sorted (l : list E) :
  sorted_desc by_ (sort_values_desc by_ l).
Proof.
  induction l as [| x l IH]; simpl.
  - constructor.
  - apply insert_desc_sorted. exact IH.
Qed.

Lemma sort_values_desc_In (z : E) (l : list E) :
  In z (sort_values_desc by_ l) -> In z l.
Proof.
  induction l as [| x l IH]; simpl; [tauto |].
  intros H. destruct (insert_desc_In _ _ _ H) as [-> | H']; auto.
Qed.

Lemma head_sorted (n : nat) (l : list E) :
  sorted_desc by_ l -> sorted_desc by_ (head n l).
Proof.
  unfold sorted_desc. intros H. revert n.
  induction H as [| y l Hs IH Hy]; intros [| n]; simpl; try constructor.
  - apply IH.
  - apply Forall_forall. intros z Hz. apply head_In in Hz.
    rewrite Forall_forall in Hy. apply Hy. exact Hz.
Qed.

Lemma head_length (n : nat) (l : list E) : (List.length (head n l) <= n)%nat.
Proof. apply firstn_le_length. Qed.

End SortProps.

(** ** Grouping *)

Section GroupByProps.

Context {K V : Type}.
Variable cmp : K -> K -> comparison.
Variable eqb : K -> K -> bool.
Variable add : V -> V -> V.
Variable pr : V -> Q.

Hypothesis cmp_eq : forall a b, cmp a b = Eq <-> a = b.
Hypothesis cmp_antisym : forall a b, cmp a b = CompOpp (cmp b a).
Hypothesis cmp_trans : forall a b c, cmp a b = Lt -> cmp b c = Lt -> cmp a c = Lt.
Hypothesis eqb_eq : forall a b, eqb a b = true <-> a = b.
Hypothesis pr_add : forall a b, (pr (add a b) == pr a + pr b)%Q.

Lemma entry_total_group_add (k0 k : K) (v : V) (acc : list (K * V)) :
  (entry_total eqb pr k0 (group_add cmp add k v acc) ==
   entry_total eqb pr k0 acc + (if eqb k k0 then pr v else 0))%Q.
Proof.
  induction acc as [| [k' v'] acc IH]; simpl.
  - ring.
  - destruct (cmp k k') eqn:Hc; simpl.
    + apply cmp_eq in Hc. subst k'.
      destruct (eqb k k0); [rewrite pr_add |]; ring.
    + ring.
    + rewrite IH. ring.
Qed.

Lemma group_add_keys (e : K * V) (k : K) (v : V) (acc : list (K * V)) :
  In e (group_add cmp add k v acc) ->
  fst e = k \/ exists e', In e' acc /\ fst e' = fst e.
Proof.
  induction acc as [| [k' v'] acc IH]; simpl.
  - intros [<- | []]. left. reflexivity.
  - destruct (cmp k k') eqn:Hc; simpl.
    + intros [<- | H]; right.
      * exists (k', v'). auto.
      * exists e. auto.
    + intros [<- | [<- | H]].
      * left. reflexivity.
      * right. exists (k', v'). auto.
      * right. exists e. auto.
    + intros [<- | H].
      * right. exists (k', v'). auto.
      * destruct (IH H) as [Hk | [e' [He' Hf]]]; [left; exact Hk |].
        right. exists e'. auto.
Qed.

Lemma group_add_sorted (k : K) (v : V) (acc : list (K * V)) :
  keys_sorted cmp acc -> keys_sorted cmp (group_add cmp add k v acc).
Proof.
  unfold keys_sorted.
  induction 1 as [| [k' v'] acc Hs IH Hall]; simpl.
  - constructor; constructor.
  - destruct (cmp k k') eqn:Hc.
    + constructor; assumption.
    + constructor; [constructor; assumption |].
      constructor; [exact Hc |].
      eapply Forall_impl; [| exact Hall]. intros e He. simpl in *.
      eapply cmp_trans; eassumption.
    + constructor; [exact IH |].
      apply Forall_forall. intros e He. simpl.
      destruct (group_add_keys _ _ _ _ He) as [Hk | [e' [He' Hf]]].
      * rewrite Hk, cmp_antisym, Hc. reflexivity.
      * rewrite Forall_forall in Hall. rewrite <- Hf. apply (Hall e' He').
Qed.

Lemma entry_total_absent (k : K) (acc : list (K * V)) :
  (forall e, In e acc -> fst e <> k) -> (entry_total eqb pr k acc == 0)%Q.
Proof.
  induction acc as [| [k' v'] acc IH]; simpl; intros H.
  - reflexivity.
  - destruct (eqb k' k) eqn:He.
    + apply eqb_eq in He. exfalso. apply (H (k', v')); auto.
    + rewrite IH; [ring |]. intros e Hin. apply H. auto.
Qed.

Lemma cmp_Lt_neq (a b : K) : cmp a b = Lt -> a <> b.
Proof.
  intros H Heq. apply cmp_eq in Heq. congruence.
Qed.

Lemma sorted_entry_total (k : K) (v : V) (acc : list (K * V)) :
  keys_sorted cmp acc -> In (k, v) acc ->
  (entry_total eqb pr k acc == pr v)%Q.
Proof.
  unfold keys_sorted.
  induction 1 as [| [k' v'] acc Hs IH Hall]; simpl; [tauto |].
  rewrite Forall_forall in Hall.
  intros [Heq | Hin].
  - inversion Heq; subst k' v'.
    assert (He : eqb k k = true) by (apply eqb_eq; reflexivity).
    rewrite He, entry_total_absent; [ring |].
    intros e Hin Hk. apply (cmp_Lt_neq k (fst e)); [| congruence].
    apply (Hall e Hin).
  - assert (He : eqb k' k = false).
    { destruct (eqb k' k) eqn:Hb; [| reflexivity].
      apply eqb_eq in Hb. exfalso.
      apply (cmp_Lt_neq k' k); [| exact Hb]. apply (Hall (k, v) Hin). }
    rewrite He, (IH Hin). ring.
Qed.

Variable key : row -> K.
Variable val : row -> V.

Lemma groupby_fold_total (k : K) (df : list row) :
  forall acc,
  (entry_total eqb pr k
     (fold_left (fun acc r => group_add cmp add (key r) (val r) acc) df acc) ==
   entry_total eqb pr k acc +
   sumQ (map (fun r => pr (val r)) (filter (fun r => eqb (key r) k) df)))%Q.
Proof.
  induction df as [| r df IH]; intros acc; simpl.
  - unfold sumQ. simpl. ring.
  - rewrite IH, entry_total_group_add.
    destruct (eqb (key r) k); simpl; [rewrite sumQ_cons |]; ring.
Qed.

Lemma groupby_fold_sorted (df : list row) :
  forall acc, keys_sorted cmp acc ->
  keys_sorted cmp
    (fold_left (fun acc r => group_add cmp add (key r) (val r) acc) df acc).
Proof.
  induction df as [| r df IH]; intros acc H; simpl.
  - exact H.
  - apply IH, group_add_sorted, H.
Qed.

(** Every entry of the grouped table holds the sum of its key's rows. *)
Lemma groupby_sum_entry (k : K) (v : V) (df : list row) :
  In (k, v) (groupby_sum cmp add key val df) ->
  (pr v == sumQ (map (fun r => pr (val r))
                     (filter (fun r => eqb (key r) k) df)))%Q.
Proof.
  unfold groupby_sum. intros Hin.
  rewrite <- (sorted_entry_total k v _
                (groupby_fold_sorted df [] (SSorted_nil _)) Hin).
  rewrite groupby_fold_total. simpl. ring.
Qed.

End GroupByProps.

Lemma string_compare_trans (a b c : string) :
  String.compare a b = Lt -> String.compare b c = Lt -> String.compare a c = Lt.
Proof.
  intros H1 H2. apply String_as_OT.cmp_lt.
  apply String_as_OT.cmp_lt in H1. apply String_as_OT.cmp_lt in H2.
  eapply String_as_OT.lt_trans; eassumption.
Qed.

(** Entries of a table of per-product sums, whatever its order and
    truncation: revenue column [rev], summed over the product's records. *)
Lemma product_entry_revenue {V : Type} (add : V -> V -> V) (pr : V -> Q)
    (val : row -> V) (p : string) (v : V) (df : list row) :
  (forall a b, (pr (add a b) == pr a + pr b)%Q) ->
  In (p, v) (groupby_sum String.compare add Product val df) ->
  (pr v == sumQ (map (fun r => pr (val r)) (of_product p df)))%Q.
Proof.
  intros Hadd Hin. unfold of_product.
  apply (groupby_sum_entry String.compare String.eqb add pr
           String_as_OT.cmp_eq String_as_OT.cmp_antisym string_compare_trans
           String.eqb_eq Hadd Product val p v df Hin).
Qed.

(** * The generated log *)

(** Within [generate_sales_data] the gap between the stored revenue and
    quantity times the stored unit price comes from the two roundings. *)
Lemma revenue_gap (price : Q) (quantity : Z) :
  1 <= quantity < 10 ->
  (Qabs (round2 (price * inject_Z quantity) - inject_Z quantity * round2 price)
   <= (inject_Z quantity + 1) * (1 # 200))%Q.
Proof.
  intros Hq.
  pose proof (round2_error (price * inject_Z quantity)) as H1.
  pose proof (round2_error price) as H2.
  apply Qabs_Qle_condition in H1. apply Qabs_Qle_condition in H2.
  apply Qabs_Qle_condition.
  assert (Hq1 : (1 <= inject_Z quantity)%Q)
    by (change 1%Q with (inject_Z 1); rewrite <- Zle_Qle; lia).
  set (q := inject_Z quantity) in *.
  set (e := (round2 price - price)%Q) in *.
  assert (Hup : (q * round2 price == q * price + q * e)%Q) by (unfold e; ring).
  assert (Hhi : (q * e <= q * (1 # 200))%Q) by (apply Qmult_le_l; lra).
  assert (Hlo : (q * - (1 # 200) <= q * e)%Q) by (apply Qmult_le_l; lra).
  rewrite Hup. split; lra.
Qed.

(** C1, as the claim states it, fails: with the generator [Lcg.lcg] the
    first record of the log is built from the drawn price
    51528660375 / 67108864 = 767.836...; it has quantity 6, unit price
    767.84 and revenue 4607.02, while [round(6 * 767.84, 2)] is 4607.04. *)
Lemma C1_revenue_identity_counterexample :
  RandomStateOk Lcg.lcg /\
  exists r : row,
    In r (fst (@generate_sales_data Lcg.lcg 0)) /\
    Quantity r = 6 /\
    Unit_Price r = (76784 # 100)%Q /\
    Revenue r = (460702 # 100)%Q /\
    built_from_price r (51528660375 # 67108864) /\
    (round2 (inject_Z (Quantity r) * Unit_Price r) == 460704 # 100)%Q /\
    ~ revenue_identity r.
Proof.
  split; [exact lcg_ok |].
  exists {| Date := 738886; Product := "Smartphone"; Category := "Electronics";
            Region := "Europe"; Quantity := 6;
            Unit_Price := (76784 # 100)%Q; Revenue := (460702 # 100)%Q |}.
  split.
  - apply (nth_error_In _ 0). vm_compute. reflexivity.
  - repeat split; try reflexivity.
    unfold revenue_identity. vm_compute. discriminate.
Qed.

(** C1 (amended): every record of the generated log is built from one
    unrounded drawn price [price]: its unit price is [round(price, 2)] and
    its revenue is [round(price * quantity, 2)].  The stored revenue lies
    within [0.005 * (quantity + 1)], hence within [0.05], of quantity times
    the stored unit price. *)
Theorem C1_revenue_from_drawn_price :
  forall (R : RandomState) (ok : RandomStateOk R) (g : rng_state) (r : row),
    In r (fst (generate_sales_data g)) ->
    (exists price : Q, built_from_price r price) /\
    (Qabs (Revenue r - inject_Z (Quantity r) * Unit_Price r)
       <= (inject_Z (Quantity r) + 1) * (1 # 200))%Q /\
    (Qabs (Revenue r - inject_Z (Quantity r) * Unit_Price r) <= 1 # 20)%Q.
Proof.
  intros R ok g r Hin.
  destruct (generate_sales_data_spec ok g) as [Hall _].
  rewrite Forall_forall in Hall.
  destruct (Hall r Hin) as [_ [_ [_ [_ [_ [Hq [price [_ [_ Hb]]]]]]]]].
  assert (Hgap := revenue_gap price (Quantity r) Hq).
  destruct Hb as [Hup Hrev].
  rewrite Hup, Hrev.
  split; [exists price; split; assumption |].
  split; [exact Hgap |].
  eapply Qle_trans; [exact Hgap |].
  assert (Hq9 : (inject_Z (Quantity r) <= 9)%Q)
    by (change 9%Q with (inject_Z 9); rewrite <- Zle_Qle; lia).
  lra.
Qed.

Lemma C1_revenue_from_drawn_price_witness :
  RandomStateOk Lcg.lcg /\
  let r := {| Date := 738886; Product := "Smartphone";
              Category := "Electronics"; Region := "Europe"; Quantity := 6;
              Unit_Price := (76784 # 100)%Q; Revenue := (460702 # 100)%Q |} in
  In r (fst (@generate_sales_data Lcg.lcg 0)) /\
  (exists price : Q, built_from_price r price) /\
  (Qabs (Revenue r - inject_Z (Quantity r) * Unit_Price r)
     <= (inject_Z (Quantity r) + 1) * (1 # 200))%Q /\
  (Qabs (Revenue r - inject_Z (Quantity r) * Unit_Price r) <= 1 # 20)%Q.
Proof.
  split; [exact lcg_ok |].
  assert (Hin : In {| Date := 738886; Product := "Smartphone";
                      Category := "Electronics"; Region := "Europe";
                      Quantity := 6; Unit_Price := (76784 # 100)%Q;
                      Revenue := (460702 # 100)%Q |}
                   (fst (@generate_sales_data Lcg.lcg 0))).
  { apply (nth_error_In _ 0). vm_compute. reflexivity. }
  split; [exact Hin |].
  exact (C1_revenue_from_drawn_price Lcg.lcg lcg_ok 0 _ Hin).
Defined.

(** The bounds of every price range are whole hundredths. *)
Lemma price_range_round2 (category : string) :
  (round2 (fst (price_range_of category)) == fst (price_range_of category))%Q /\
  (round2 (snd (price_range_of category)) == snd (price_range_of category))%Q.
Proof.
  unfold price_range_of.
  destruct (String.eqb category "Computers");
    [| destruct (String.eqb category "Electronics");
       [| destruct (String.eqb category "Audio")]];
    split; vm_compute; reflexivity.
Qed.

(** C8: every day of the inclusive range 2024-01-01 .. 2024-11-24 has
    between 5 and 14 records; every record has a quantity in [[1, 10)], a
    product of the catalog, the category the lookup gives to its product, a
    region of the catalog, and a unit price that is the two-decimal rounding
    of a draw from the price range of its category, so that it lies between
    the two bounds of that range. *)
Theorem C8_generation_ranges :
  forall (R : RandomState) (ok : RandomStateOk R) (g : rng_state),
    let df := fst (generate_sales_data g) in
    (forall d : Z,
        Calendar.datetime 2024 1 1 <= d <= Calendar.datetime 2024 11 24 ->
        5 <= count_date d df < 15) /\
    (forall r : row, In r df ->
        Calendar.datetime 2024 1 1 <= Date r <= Calendar.datetime 2024 11 24 /\
        1 <= Quantity r < 10 /\
        In (Product r) products /\
        Category r = category_of (Product r) /\
        In (Region r) regions /\
        (exists price : Q,
          (fst (price_range_of (Category r)) <= price)%Q /\
          (price < snd (price_range_of (Category r)))%Q /\
          Unit_Price r = round2 price) /\
        (fst (price_range_of (Category r)) <= Unit_Price r)%Q /\
        (Unit_Price r <= snd (price_range_of (Category r)))%Q).
Proof.
  intros R ok g df.
  destruct (generate_sales_data_spec ok g) as [Hall Hcount].
  split.
  - intros d Hd. apply Hcount. exact Hd.
  - intros r Hin. rewrite Forall_forall in Hall.
    destruct (Hall r Hin)
      as [Hw [_ [Hp [Hc [Hr [Hq [price [Hlo [Hhi [Hup _]]]]]]]]]].
    split; [exact Hw |]. split; [exact Hq |]. split; [exact Hp |].
    split; [exact Hc |]. split; [exact Hr |].
    split; [exists price; auto |].
    rewrite Hup.
    destruct (price_range_round2 (Category r)) as [Elo Ehi].
    split.
    + rewrite <- Elo. apply round2_mono. exact Hlo.
    + rewrite <- Ehi. apply round2_mono, Qlt_le_weak. exact Hhi.
Qed.

Lemma C8_generation_ranges_witness :
  RandomStateOk Lcg.lcg /\
  let df := fst (@generate_sales_data Lcg.lcg 0) in
  (forall d : Z,
      Calendar.datetime 2024 1 1 <= d <= Calendar.datetime 2024 11 24 ->
      5 <= count_date d df < 15) /\
  (forall r : row, In r df ->
      Calendar.datetime 2024 1 1 <= Date r <= Calendar.datetime 2024 11 24 /\
      1 <= Quantity r < 10 /\
      In (Product r) products /\
      Category r = category_of (Product r) /\
      In (Region r) regions /\
      (exists price : Q,
        (fst (price_range_of (Category r)) <= price)%Q /\
        (price < snd (price_range_of (Category r)))%Q /\
        Unit_Price r = round2 price) /\
      (fst (price_range_of (Category r)) <= Unit_Price r)%Q /\
      (Unit_Price r <= snd (price_range_of (Category r)))%Q).
Proof.
  split; [exact lcg_ok |].
  exact (C8_generation_ranges Lcg.lcg lcg_ok 0).
Defined.

(** C6: the log does not depend on the state the global generator is in
    when [generate_sales_data] is called, so two runs give the same records
    in the same order (and leave the generator in the same state); behind
    the cache a second call returns the frame of the first. *)
Theorem C6_generator_deterministic :
  forall (R : RandomState) (g1 g2 : rng_state),
    generate_sales_data g1 = generate_sales_data g2 /\
    fst (generate_sales_data g1) =
      fst (generate_sales_data (snd (generate_sales_data g1))) /\
    (forall cache : option (list row),
        let run1 := generate_sales_data_cached cache g1 in
        let run2 :=
          generate_sales_data_cached (fst (snd run1)) (snd (snd run1)) in
        fst run1 = fst run2) /\
    fst (generate_sales_data_cached None g1) = fst (generate_sales_data g2).
Proof.
  intros R g1 g2.
  split; [reflexivity |]. split; [reflexivity |]. split.
  - intros [df |]; simpl.
    + reflexivity.
    + destruct (generate_sales_data g1) as [df g']. reflexivity.
  - simpl. change (generate_sales_data g1) with (generate_sales_data g2).
    destruct (generate_sales_data g2) as [df g']. reflexivity.
Qed.

(** * The pipeline *)

(** The pipeline on [sample_log]: the window 738910 .. 738919 keeps rows
    3 to 5, the previous window 738900 .. 738909 keeps rows 1 and 2. *)
Example sample_run :
  map Date (filtered_df sample_log sample_selection) = [738912; 738913; 738915] /\
  map Date (previous_df sample_log sample_selection) = [738900; 738905] /\
  (total_revenue sample_log sample_selection == 1930)%Q /\
  total_transactions sample_log sample_selection = 3 /\
  total_quantity sample_log sample_selection = 7 /\
  (previous_revenue sample_log sample_selection == (127650 # 100))%Q /\
  map (fun e => (fst e, Qred (snd e))) (product_revenue sample_log sample_selection)
    = [("Laptop", 1800%Q); ("Mouse", 130%Q)] /\
  map (fun e => (fst e, (fst (snd e), Qred (snd (snd e)))))
      (top_products sample_log sample_selection)
    = [("Laptop", (2, 1800%Q)); ("Mouse", (5, 130%Q))].
Proof. vm_compute. repeat split. Qed.

(** C2: the growth rate is [(current - previous) / previous * 100] when
    the previous revenue is positive and 0 when it is zero; 1200 against
    1000 gives 20, 500 against 0 gives 0. *)
Theorem C2_growth_rate :
  forall (df : list row) (sel : selection) (current previous : Q),
    growth_rate df sel =
      growth_rate_of (sumQ (map Revenue (filtered_df df sel)))
                     (sumQ (map Revenue (previous_df df sel))) /\
    ((0 < previous)%Q ->
       growth_rate_of current previous
       = ((current - previous) / previous * 100)%Q) /\
    ((previous == 0)%Q -> growth_rate_of current previous = 0%Q) /\
    (growth_rate_of 1200 1000 == 20)%Q /\
    growth_rate_of 500 0 = 0%Q.
Proof.
  intros df sel current previous.
  split; [reflexivity |].
  unfold growth_rate_of. split; [| split; [| split]].
  - intros H. destruct (Qlt_le_dec 0 previous) as [_ | Hle]; [reflexivity |].
    exfalso. apply (Qlt_not_le _ _ H Hle).
  - intros H. destruct (Qlt_le_dec 0 previous) as [Hlt | _]; [| reflexivity].
    exfalso. rewrite H in Hlt. apply (Qlt_irrefl 0 Hlt).
  - vm_compute. reflexivity.
  - reflexivity.
Qed.

Lemma C2_growth_rate_witness :
  (0 < 1000)%Q /\
  growth_rate_of 1200 1000 = ((1200 - 1000) / 1000 * 100)%Q /\
  (0 == 0)%Q /\
  growth_rate_of 500 0 = 0%Q.
Proof.
  split; [reflexivity |].
  split; [apply (proj1 (proj2 (C2_growth_rate [] (mkSelection 0 0 [] [] [])
                                 1200 1000))); reflexivity |].
  split; [reflexivity |].
  apply (proj1 (proj2 (proj2 (C2_growth_rate [] (mkSelection 0 0 [] [] [])
                               500 0)))).
  reflexivity.
Defined.

(** C3: a record of the log is in the filtered subset exactly when its
    date is in the selected range and its category, region and product are
    all among the selected ones. *)
Theorem C3_conjunctive_filter :
  forall (df : list row) (sel : selection) (r : row),
    In r df ->
    (In r (filtered_df df sel) <->
     start_date sel <= Date r <= end_date sel /\
     In (Category r) (selected_categories sel) /\
     In (Region r) (selected_regions sel) /\
     In (Product r) (selected_products sel)).
Proof.
  intros df sel r Hin. rewrite filtered_df_In.
  unfold matches, in_window. tauto.
Qed.

Lemma C3_conjunctive_filter_witness :
  let r := mkRow 738900 "Mouse" "Accessories" "Asia" 3 (2550 # 100) (7650 # 100) in
  let sel := mkSelection 738886 738916 ["Accessories"] ["Asia"; "Europe"]
               ["Mouse"; "Laptop"] in
  In r [r] /\
  (In r (filtered_df [r] sel) <->
   start_date sel <= Date r <= end_date sel /\
   In (Category r) (selected_categories sel) /\
   In (Region r) (selected_regions sel) /\
   In (Product r) (selected_products sel)).
Proof.
  intros r sel.
  assert (Hin : In r [r]) by (left; reflexivity).
  split; [exact Hin |].
  exact (C3_conjunctive_filter [r] sel r Hin).
Defined.

(** C4: for a selection with [start_date <= end_date] the previous window
    ends the day before [start_date], starts [period_days - 1] days
    earlier, and has as many days as the selected window; the previous
    subset is the log filtered by the same category, region and product
    sets over that window. *)
Theorem C4_previous_window :
  forall (df : list row) (sel : selection),
    start_date sel <= end_date sel ->
    period_days sel = (end_date sel - start_date sel) + 1 /\
    previous_end sel = start_date sel - 1 /\
    previous_start sel = previous_end sel - period_days sel + 1 /\
    Z.of_nat (List.length
      (Calendar.date_range (previous_start sel) (previous_end sel)))
      = period_days sel /\
    Z.of_nat (List.length
      (Calendar.date_range (start_date sel) (end_date sel)))
      = period_days sel /\
    previous_df df sel = filtered_df df (previous_selection sel) /\
    (forall r : row,
        In r (previous_df df sel) <->
        In r df /\
        previous_start sel <= Date r <= previous_end sel /\
        In (Category r) (selected_categories sel) /\
        In (Region r) (selected_regions sel) /\
        In (Product r) (selected_products sel)).
Proof.
  intros df sel Hle.
  split; [reflexivity |]. split; [reflexivity |].
  split; [unfold previous_start, previous_end; lia |].
  split; [rewrite date_range_length;
          unfold previous_start, previous_end, period_days; lia |].
  split; [rewrite date_range_length; unfold period_days; lia |].
  split; [reflexivity |].
  intros r. rewrite previous_df_as_filtered, filtered_df_In.
  unfold matches, in_window, previous_selection. simpl. tauto.
Qed.

Lemma C4_previous_window_witness :
  let r := mkRow 738900 "Mouse" "Accessories" "Asia" 3 (2550 # 100) (7650 # 100) in
  let sel := mkSelection 738910 738919 ["Accessories"] ["Asia"] ["Mouse"] in
  start_date sel <= end_date sel /\
  period_days sel = 10 /\
  previous_start sel = 738900 /\
  previous_end sel = 738909 /\
  Z.of_nat (List.length
    (Calendar.date_range (previous_start sel) (previous_end sel))) = 10 /\
  previous_df [r] sel = [r].
Proof.
  intros r sel.
  assert (Hle : start_date sel <= end_date sel) by (simpl; lia).
  destruct (C4_previous_window [r] sel Hle)
    as [Hp [He [Hs [Hlen [_ [Hdf _]]]]]].
  split; [exact Hle |].
  split; [rewrite Hp; reflexivity |].
  split; [rewrite Hs, He, Hp; reflexivity |].
  split; [rewrite He; reflexivity |].
  split; [rewrite Hlen, Hp; reflexivity |].
  rewrite Hdf. reflexivity.
Defined.

(** C9: for a selection with [start_date <= end_date] the previous window
    ends on the day before the selected window starts, no day lies in both
    windows, and no record is in both the filtered subset and the
    previous-period subset. *)
Theorem C9_windows_disjoint :
  forall (df : list row) (sel : selection),
    start_date sel <= end_date sel ->
    previous_end sel = start_date sel - 1 /\
    previous_start sel <= previous_end sel /\
    (forall d : Z,
        ~ (in_window (start_date sel) (end_date sel) d /\
           in_window (previous_start sel) (previous_end sel) d)) /\
    (forall r : row,
        ~ (In r (filtered_df df sel) /\ In r (previous_df df sel))).
Proof.
  intros df sel Hle.
  split; [reflexivity |].
  split; [unfold previous_start, previous_end, period_days; lia |].
  split.
  - unfold in_window, previous_end. intros d [H1 H2]. lia.
  - intros r [H1 H2].
    rewrite previous_df_as_filtered in H2.
    apply filtered_df_In in H1. apply filtered_df_In in H2.
    destruct H1 as [_ [H1 _]]. destruct H2 as [_ [H2 _]].
    unfold in_window, previous_selection, previous_end in *. simpl in *. lia.
Qed.

Lemma C9_windows_disjoint_witness :
  let r1 := mkRow 738900 "Mouse" "Accessories" "Asia" 3 (2550 # 100) (7650 # 100) in
  let r2 := mkRow 738912 "Mouse" "Accessories" "Asia" 1 (3000 # 100) (3000 # 100) in
  let sel := mkSelection 738910 738919 ["Accessories"] ["Asia"] ["Mouse"] in
  start_date sel <= end_date sel /\
  filtered_df [r1; r2] sel = [r2] /\
  previous_df [r1; r2] sel = [r1] /\
  (forall r : row,
      ~ (In r (filtered_df [r1; r2] sel) /\ In r (previous_df [r1; r2] sel))).
Proof.
  intros r1 r2 sel.
  assert (Hle : start_date sel <= end_date sel) by (simpl; lia).
  split; [exact Hle |].
  split; [reflexivity |]. split; [reflexivity |].
  exact (proj2 (proj2 (proj2 (C9_windows_disjoint [r1; r2] sel Hle)))).
Defined.

(** C5: when one of the three selection sets is empty, the filtered
    subset is empty and total revenue, transaction count, average
    transaction, units sold and growth rate are all 0. *)
Theorem C5_empty_selection :
  forall (df : list row) (sel : selection),
    selected_categories sel = [] \/ selected_regions sel = [] \/
    selected_products sel = [] ->
    filtered_df df sel = [] /\
    total_revenue df sel = 0%Q /\
    total_transactions df sel = 0 /\
    avg_transaction df sel = 0%Q /\
    total_quantity df sel = 0 /\
    growth_rate df sel = 0%Q.
Proof.
  intros df sel H.
  destruct (empty_selection_filtered df sel H) as [Hf Hp].
  unfold total_revenue, total_transactions, avg_transaction, total_quantity,
    growth_rate, current_revenue, previous_revenue.
  rewrite Hf, Hp. simpl.
  split; [reflexivity |]. split; [reflexivity |]. split; [reflexivity |].
  split; [reflexivity |]. split; [reflexivity |].
  unfold growth_rate_of.
  destruct (Qlt_le_dec 0 (sumQ [])) as [Hlt | _]; [| reflexivity].
  exfalso. apply (Qlt_irrefl 0 Hlt).
Qed.

Lemma C5_empty_selection_witness :
  let r := mkRow 738900 "Mouse" "Accessories" "Asia" 3 (2550 # 100) (7650 # 100) in
  let sel := mkSelection 738886 738916 ["Accessories"] [] ["Mouse"] in
  (selected_categories sel = [] \/ selected_regions sel = [] \/
   selected_products sel = []) /\
  filtered_df [r] sel = [] /\
  total_revenue [r] sel = 0%Q /\
  total_transactions [r] sel = 0 /\
  avg_transaction [r] sel = 0%Q /\
  total_quantity [r] sel = 0 /\
  growth_rate [r] sel = 0%Q.
Proof.
  intros r sel.
  assert (H : selected_categories sel = [] \/ selected_regions sel = [] \/
              selected_products sel = []) by (right; left; reflexivity).
  split; [exact H |].
  exact (C5_empty_selection [r] sel H).
Defined.

Lemma add_qty_rev_quantity (a b : Z * Q) :
  (inject_Z (fst (add_qty_rev a b)) == inject_Z (fst a) + inject_Z (fst b))%Q.
Proof.
  simpl. rewrite inject_Z_plus. reflexivity.
Qed.

(** C7: the product revenue table is in descending order of revenue and
    has at most 8 entries, the top-selling table is in descending order of
    revenue and has at most 5 entries; in both, the revenue of an entry is
    the sum of the revenue of the filtered records of its product, and the
    quantity of a top-selling entry is the sum of their quantities. *)
Theorem C7_top_product_tables :
  forall (df : list row) (sel : selection),
    sorted_desc snd (product_revenue df sel) /\
    (List.length (product_revenue df sel) <= 8)%nat /\
    (forall (p : string) (v : Q),
        In (p, v) (product_revenue df sel) ->
        (v == sumQ (map Revenue (of_product p (filtered_df df sel))))%Q) /\
    sorted_desc (fun e => snd (snd e)) (top_products df sel) /\
    (List.length (top_products df sel) <= 5)%nat /\
    (forall (p : string) (q : Z) (v : Q),
        In (p, (q, v)) (top_products df sel) ->
        (v == sumQ (map Revenue (of_product p (filtered_df df sel))))%Q /\
        q = sumZ (map Quantity (of_product p (filtered_df df sel)))).
Proof.
  intros df sel. unfold product_revenue, top_products.
  split; [apply head_sorted, sort_values_desc_sorted |].
  split; [apply head_length |].
  split.
  { intros p v Hin. apply head_In in Hin.
    apply (sort_values_desc_In snd) in Hin.
    apply (product_entry_revenue Qplus (fun x => x) Revenue p v _
             (fun a b => Qeq_refl _) Hin). }
  split; [apply head_sorted, sort_values_desc_sorted |].
  split; [apply head_length |].
  intros p q v Hin. apply head_In in Hin.
  apply (sort_values_desc_In (fun e => snd (snd e))) in Hin. split.
  - apply (product_entry_revenue add_qty_rev snd
             (fun r => (Quantity r, Revenue r)) p (q, v) _
             (fun a b => Qeq_refl _) Hin).
  - pose proof (product_entry_revenue add_qty_rev (fun x => inject_Z (fst x))
             (fun r => (Quantity r, Revenue r)) p (q, v) _
             add_qty_rev_quantity Hin) as Hq.
    simpl in Hq.
    rewrite <- (map_map Quantity inject_Z), sumQ_inject_Z in Hq.
    exact (proj1 (inject_Z_injective _ _) Hq).
Qed.

(** C10: the filtered subset and the previous-period subset are
    subsequences of the log, so each of their records is a record of the
    log, unchanged and in log order; after the script has run, with its
    in-place write to the display copy, [df] still holds the log and
    [filtered_df] and [previous_df] still hold the two subsets. *)
Theorem C10_filter_frame :
  forall (df : list row) (sel : selection)
         (strftime : row -> row) (sort_display : list row -> list row),
    subseq (filtered_df df sel) df /\
    subseq (previous_df df sel) df /\
    (forall r : row, In r (filtered_df df sel) -> In r df) /\
    (forall r : row, In r (previous_df df sel) -> In r df) /\
    let vars := run_script df sel strftime sort_display in
    deref (v_heap vars) (v_df vars) = df /\
    deref (v_heap vars) (v_filtered_df vars) = filtered_df df sel /\
    deref (v_heap vars) (v_previous_df vars) = previous_df df sel /\
    deref (v_heap vars) (v_display_df vars)
      = sort_display (map strftime (filtered_df df sel)).
Proof.
  intros df sel strftime sort_display.
  assert (H1 : subseq (filtered_df df sel) df) by apply subseq_filter.
  assert (H2 : subseq (previous_df df sel) df) by apply subseq_filter.
  split; [exact H1 |]. split; [exact H2 |].
  split; [apply subseq_In, H1 |]. split; [apply subseq_In, H2 |].
  cbv zeta. unfold run_script, alloc, deref. simpl.
  split; [reflexivity |]. split; [reflexivity |]. split; reflexivity.
Qed.

(** * Further properties of the pipeline *)

(** ** Masks *)

Lemma filtered_df_filter (df : list row) (sel : selection) :
  filtered_df df sel = filter (matchesb sel) df.
Proof. reflexivity. Qed.

Lemma matchesb_iff (sel : selection) (r : row) :
  matchesb sel r = true <-> matches sel r.
Proof.
  unfold matchesb, matches, in_window.
  rewrite !andb_true_iff, !isin_In, !Z.leb_le. tauto.
Qed.

Lemma filter_filter_and {A : Type} (f g : A -> bool) (l : list A) :
  filter f (filter g l) = filter (fun x => f x && g x) l.
Proof.
  induction l as [| a l IH]; simpl; [reflexivity |].
  destruct (g a); simpl; rewrite ?andb_true_r, ?andb_false_r;
    [destruct (f a) |]; rewrite IH; reflexivity.
Qed.

Lemma subseq_filter_impl {A : Type} (f g : A -> bool) (l : list A) :
  (forall x, f x = true -> g x = true) -> subseq (filter f l) (filter g l).
Proof.
  intros H. induction l as [| a l IH]; simpl; [constructor |].
  destruct (f a) eqn:Hf.
  - rewrite (H a Hf). apply subseq_keep. exact IH.
  - destruct (g a); [apply subseq_skip |]; exact IH.
Qed.

Lemma subseq_length {A : Type} (l1 l2 : list A) :
  subseq l1 l2 -> (List.length l1 <= List.length l2)%nat.
Proof.
  induction 1; simpl; lia.
Qed.

Lemma narrower_matchesb (inner outer : selection) (r : row) :
  narrower inner outer -> matchesb inner r = true -> matchesb outer r = true.
Proof.
  intros [Hs [He [Hc [Hr Hp]]]] H.
  apply matchesb_iff in H. apply matchesb_iff.
  destruct H as [Hw [H1 [H2 H3]]]. unfold in_window in *.
  repeat split; [lia | lia | apply Hc, H1 | apply Hr, H2 | apply Hp, H3].
Qed.

(** ** Narrowing and composing selections *)

(** X3: filtering an already filtered frame by a narrower selection gives
    what the narrower selection gives on the log; the narrower view is a
    subsequence of the wider one and has no more transactions.  Filters
    applied one after the other commute. *)
Theorem filter_narrowing :
  forall (df : list row) (inner outer : selection),
    narrower inner outer ->
    filtered_df (filtered_df df outer) inner = filtered_df df inner /\
    subseq (filtered_df df inner) (filtered_df df outer) /\
    total_transactions df inner <= total_transactions df outer /\
    filtered_df (filtered_df df outer) inner
      = filtered_df (filtered_df df inner) outer.
Proof.
  intros df inner outer Hn.
  assert (Himp := narrower_matchesb inner outer).
  assert (Hsub : subseq (filtered_df df inner) (filtered_df df outer)).
  { rewrite !filtered_df_filter. apply subseq_filter_impl.
    intros r. apply Himp, Hn. }
  assert (E1 : filtered_df (filtered_df df outer) inner = filtered_df df inner).
  { rewrite !filtered_df_filter, filter_filter_and. apply filter_ext.
    intros r. destruct (matchesb inner r) eqn:Hi; [| reflexivity].
    rewrite (Himp r Hn Hi). reflexivity. }
  split; [exact E1 |]. split; [exact Hsub |]. split.
  - unfold total_transactions. apply subseq_length in Hsub. lia.
  - rewrite E1, !filtered_df_filter, filter_filter_and.
    apply filter_ext. intros r.
    destruct (matchesb inner r) eqn:Hi.
    + rewrite (Himp r Hn Hi). reflexivity.
    + rewrite andb_false_r. reflexivity.
Qed.

Lemma filter_narrowing_witness :
  let inner := mkSelection 738912 738915 ["Accessories"] ["Asia"] ["Mouse"] in
  narrower inner sample_selection /\
  filtered_df (filtered_df sample_log sample_selection) inner
    = filtered_df sample_log inner /\
  map Date (filtered_df sample_log inner) = [738912] /\
  total_transactions sample_log inner
    <= total_transactions sample_log sample_selection.
Proof.
  intros inner.
  assert (Hn : narrower inner sample_selection).
  { unfold narrower, incl. simpl. repeat split; try lia; intros a H;
      repeat (destruct H as [<- | H]; [tauto |]); destruct H. }
  destruct (filter_narrowing sample_log inner sample_selection Hn)
    as [E [_ [Hle _]]].
  split; [exact Hn |]. split; [exact E |]. split; [reflexivity | exact Hle].
Defined.

(** ** The two periods side by side *)





(** ** KPIs *)

Lemma sumQ_nonneg (l : list Q) :
  Forall (fun x => (0 <= x)%Q) l -> (0 <= sumQ l)%Q.
Proof.
  induction 1 as [| x l Hx _ IH].
  - unfold sumQ. simpl. lra.
  - rewrite sumQ_cons. lra.
Qed.

Lemma filtered_revenue_nonneg (df : list row) (sel : selection) :
  Forall (fun r => (0 <= Revenue r)%Q) df ->
  (0 <= sumQ (map Revenue (filtered_df df sel)))%Q.
Proof.
  intros H. apply sumQ_nonneg. apply Forall_map.
  rewrite Forall_forall in *. intros r Hr. apply H.
  apply filtered_df_In in Hr. apply Hr.
Qed.

Lemma mean_times_length (l : list Q) :
  l <> [] -> (meanQ l * inject_Z (Z.of_nat (List.length l)) == sumQ l)%Q.
Proof.
  intros Hne. unfold meanQ. field. intros H0.
  change 0%Q with (inject_Z 0) in H0.
  apply (proj1 (inject_Z_injective _ _)) in H0.
  destruct l; [congruence | simpl in H0; lia].
Qed.


Lemma growth_rate_of_pos (current previous : Q) :
  (0 < previous)%Q ->
  (growth_rate_of current previous
     == (current - previous) * / previous * 100)%Q.
Proof.
  intros H. unfold growth_rate_of.
  destruct (Qlt_le_dec 0 previous) as [_ | Hle]; [reflexivity |].
  exfalso. apply (Qlt_not_le _ _ H Hle).
Qed.

Lemma growth_rate_of_nonpos (current previous : Q) :
  (previous <= 0)%Q -> growth_rate_of current previous = 0%Q.
Proof.
  intros H. unfold growth_rate_of.
  destruct (Qlt_le_dec 0 previous) as [Hlt | _]; [| reflexivity].
  exfalso. apply (Qlt_not_le _ _ Hlt H).
Qed.

(** X2: on a log without negative revenues the growth rate is never below
    -100; it is positive exactly when the previous revenue is positive and
    the current revenue is larger, and negative exactly when the previous
    revenue is positive and the current revenue is smaller. *)
Theorem growth_rate_sign :
  forall (df : list row) (sel : selection),
    Forall (fun r => (0 <= Revenue r)%Q) df ->
    (- (100) <= growth_rate df sel)%Q /\
    ((0 < growth_rate df sel)%Q <->
     (0 < previous_revenue df sel)%Q /\
     (previous_revenue df sel < current_revenue df sel)%Q) /\
    ((growth_rate df sel < 0)%Q <->
     (0 < previous_revenue df sel)%Q /\
     (current_revenue df sel < previous_revenue df sel)%Q).
Proof.
  intros df sel Hnn. unfold growth_rate.
  assert (Hc : (0 <= current_revenue df sel)%Q)
    by (apply filtered_revenue_nonneg, Hnn).
  set (c := current_revenue df sel) in *.
  set (p := previous_revenue df sel) in *.
  destruct (Qlt_le_dec 0 p) as [Hp | Hp].
  - rewrite (growth_rate_of_pos c p Hp).
    assert (Hi : (0 < / p)%Q) by (apply Qinv_lt_0_compat, Hp).
    assert (E : ((c - p) * / p * 100 == (c - p) * (/ p * 100))%Q) by ring.
    assert (Hk : (0 < / p * 100)%Q) by (apply Qmult_lt_0_compat; lra).
    assert (E1 : ((c - p) * / p * 100 == c * (/ p * 100) - 100)%Q)
      by (field; lra).
    set (k := (/ p * 100)%Q) in *.
    split; [| split].
    + rewrite E1. assert (0 <= c * k)%Q by (apply Qmult_le_0_compat; lra). lra.
    + rewrite E. split.
      * intros H. split; [exact Hp |].
        destruct (Qlt_le_dec p c) as [Hlt | Hge]; [exact Hlt |]. exfalso.
        assert ((c - p) * k <= 0 * k)%Q by (apply Qmult_le_compat_r; lra).
        lra.
      * intros [_ H]. apply Qmult_lt_0_compat; lra.
    + rewrite E. split.
      * intros H. split; [exact Hp |].
        destruct (Qlt_le_dec c p) as [Hlt | Hge]; [exact Hlt |]. exfalso.
        assert (0 <= (c - p) * k)%Q by (apply Qmult_le_0_compat; lra).
        lra.
      * intros [_ H].
        assert (0 < (p - c) * k)%Q by (apply Qmult_lt_0_compat; lra).
        assert (((p - c) * k == - ((c - p) * k))%Q) by ring.
        lra.
  - rewrite (growth_rate_of_nonpos c p Hp).
    split; [lra |]. split; split; try lra; intros [H _]; lra.
Qed.

Lemma growth_rate_sign_witness :
  Forall (fun r => (0 <= Revenue r)%Q) sample_log /\
  (- (100) <= growth_rate sample_log sample_selection)%Q /\
  (0 < growth_rate sample_log sample_selection)%Q.
Proof.
  assert (Hnn : Forall (fun r => (0 <= Revenue r)%Q) sample_log).
  { unfold sample_log. repeat constructor; discriminate. }
  destruct (growth_rate_sign sample_log sample_selection Hnn)
    as [Hlo [Hpos _]].
  split; [exact Hnn |]. split; [exact Hlo |].
  apply Hpos. split; vm_compute; reflexivity.
Defined.

(** * Further properties of the generated log *)

Lemma StronglySorted_app {A : Type} (rel : A -> A -> Prop) (l1 l2 : list A) :
  StronglySorted rel l1 -> StronglySorted rel l2 ->
  (forall x y, In x l1 -> In y l2 -> rel x y) ->
  StronglySorted rel (l1 ++ l2).
Proof.
  induction 1 as [| a l1 Hs IH Ha]; intros H2 Hx; simpl; [exact H2 |].
  constructor.
  - apply IH; [exact H2 |]. intros x y Hin. apply Hx. right. exact Hin.
  - apply Forall_app. split; [exact Ha |].
    apply Forall_forall. intros y Hy. apply Hx; [left; reflexivity | exact Hy].
Qed.

Lemma same_day_ordered (d : Z) (l : list row) :
  Forall (fun r => Date r = d) l -> date_ordered l.
Proof.
  unfold date_ordered. induction 1 as [| r l Hr Hall IH]; constructor.
  - exact IH.
  - eapply Forall_impl; [| exact Hall]. intros x Hx. simpl in Hx. lia.
Qed.

Lemma date_range_increasing (a b : Z) :
  StronglySorted Z.lt (Calendar.date_range a b).
Proof.
  unfold Calendar.date_range.
  generalize (Z.to_nat (b - a + 1)) as n. generalize 0%nat as s.
  intros s n. revert s.
  induction n as [| n IH]; intros s; simpl; constructor.
  - apply IH.
  - apply Forall_forall. intros d Hd. apply in_map_iff in Hd.
    destruct Hd as [i [<- Hi]]. apply in_seq in Hi. lia.
Qed.

Lemma series_min_spec (xs : list Z) (m : Z) :
  series_min xs = Some m -> In m xs /\ Forall (fun x => m <= x) xs.
Proof.
  destruct xs as [| x xs]; simpl; [discriminate |].
  intros H. injection H as <-.
  revert x. induction xs as [| y xs IH]; intros x; simpl.
  - split; [left; reflexivity | constructor; [lia | constructor]].
  - destruct (IH (Z.min x y)) as [Hin Hall].
    remember (fold_left Z.min xs (Z.min x y)) as m eqn:Em. clear Em.
    inversion Hall as [| ? ? Hm Hrest]; subst. split.
    + destruct Hin as [Hin | Hin]; [| right; right; exact Hin].
      destruct (Z.min_spec x y) as [[_ E] | [_ E]];
        [left | right; left]; lia.
    + constructor; [lia |]. constructor; [lia | exact Hrest].
Qed.

Lemma series_max_spec (xs : list Z) (m : Z) :
  series_max xs = Some m -> In m xs /\ Forall (fun x => x <= m) xs.
Proof.
  destruct xs as [| x xs]; simpl; [discriminate |].
  intros H. injection H as <-.
  revert x. induction xs as [| y xs IH]; intros x; simpl.
  - split; [left; reflexivity | constructor; [lia | constructor]].
  - destruct (IH (Z.max x y)) as [Hin Hall].
    remember (fold_left Z.max xs (Z.max x y)) as m eqn:Em. clear Em.
    inversion Hall as [| ? ? Hm Hrest]; subst. split.
    + destruct Hin as [Hin | Hin]; [| right; right; exact Hin].
      destruct (Z.max_spec x y) as [[_ E] | [_ E]];
        [right; left | left]; lia.
    + constructor; [lia |]. constructor; [lia | exact Hrest].
Qed.

Lemma series_min_some (xs : list Z) :
  xs <> [] -> exists m, series_min xs = Some m.
Proof.
  destruct xs as [| x xs]; [congruence |]. intros _. simpl. eauto.
Qed.

Lemma series_max_some (xs : list Z) :
  xs <> [] -> exists m, series_max xs = Some m.
Proof.
  destruct xs as [| x xs]; [congruence |]. intros _. simpl. eauto.
Qed.

Lemma count_date_pos_In (d : Z) (df : list row) :
  0 < count_date d df -> exists r, In r df /\ Date r = d.
Proof.
  unfold count_date. intros H.
  destruct (filter (fun r => Date r =? d) df) as [| r l] eqn:E;
    [simpl in H; lia |].
  assert (Hin : In r (filter (fun r => Date r =? d) df))
    by (rewrite E; left; reflexivity).
  apply filter_In in Hin. destruct Hin as [Hin Hd].
  exists r. split; [exact Hin | apply Z.eqb_eq, Hd].
Qed.

Section GeneratorShape.

Context {R : RandomState} (ok : RandomStateOk R).

(** The outer loop appends between 5 and 14 records per day, and appends
    them in the order of the days. *)
Lemma fill_loop_shape (ds : list Z) :
  forall (data : list row) (s : rng_state),
  exists rows,
    fst (for_each ds
           (fun date data =>
              num_transactions <- randint 5 15 ;;
              for_each (range num_transactions)
                (fun _ data => r <- transaction date ;; ret (data ++ [r]))
                data)
           data s) = data ++ rows /\
    5 * Z.of_nat (List.length ds) <= Z.of_nat (List.length rows)
      <= 14 * Z.of_nat (List.length ds) /\
    Forall (fun r => In (Date r) ds) rows /\
    (StronglySorted Z.lt ds -> date_ordered rows).
Proof.
  induction ds as [| d0 ds IH]; intros data s; simpl for_each.
  - exists []. rewrite app_nil_r. simpl.
    repeat split; try lia; constructor.
  - unfold bind at 1. unfold bind at 1.
    pose proof (randint_range 5 15 s eq_refl) as Hn.
    destruct (randint 5 15 s) as [n s1]. simpl in Hn.
    destruct (inner_loop_spec ok d0 (range n) data s1) as [day [Heq [Hlen Hday]]].
    destruct (for_each (range n) _ data s1) as [data1 s2]. simpl in Heq.
    subst data1.
    destruct (IH (data ++ day) s2) as [rest [Heq2 [Hcount [Hin Hord]]]].
    exists (day ++ rest). rewrite Heq2, app_assoc. split; [reflexivity |].
    assert (Hdates : Forall (fun r => Date r = d0) day).
    { eapply Forall_impl; [| exact Hday]. intros r Hr. apply Hr. }
    unfold range in Hlen. rewrite length_seq in Hlen.
    split; [| split].
    + rewrite length_app. simpl List.length. lia.
    + apply Forall_app. split.
      * eapply Forall_impl; [| exact Hdates]. intros r Hr. left. auto.
      * eapply Forall_impl; [| exact Hin]. intros r Hr. right. exact Hr.
    + intros Hs. inversion Hs as [| ? ? Hs' Hlt]; subst.
      apply StronglySorted_app.
      * apply (same_day_ordered d0), Hdates.
      * apply Hord, Hs'.
      * intros x y Hx Hy. rewrite Forall_forall in Hdates, Hin, Hlt.
        rewrite (Hdates x Hx). specialize (Hlt _ (Hin y Hy)). lia.
Qed.

Lemma generate_sales_data_shape (g : rng_state) :
  let df := fst (generate_sales_data g) in
  1645 <= Z.of_nat (List.length df) <= 4606 /\ date_ordered df.
Proof.
  unfold generate_sales_data, fill_log.
  destruct (fill_loop_shape (Calendar.date_range start_date_gen end_date_gen)
              [] (seed 42)) as [rows [Heq [Hlen [_ Hord]]]].
  cbv zeta. rewrite Heq. simpl app.
  assert (E : List.length (Calendar.date_range start_date_gen end_date_gen)
              = 329%nat) by (vm_compute; reflexivity).
  rewrite E in Hlen. split; [lia |].
  apply Hord, date_range_increasing.
Qed.

End GeneratorShape.

Lemma generate_sales_data_min_max {R : RandomState} (ok : RandomStateOk R)
    (g : rng_state) :
  let df := fst (generate_sales_data g) in
  series_min (map Date df) = Some start_date_gen /\
  series_max (map Date df) = Some end_date_gen.
Proof.
  intros df.
  destruct (generate_sales_data_spec ok g) as [Hall Hcount].
  fold df in Hall, Hcount.
  assert (Hwin : Forall (fun d => start_date_gen <= d <= end_date_gen)
                        (map Date df)).
  { apply Forall_map. eapply Forall_impl; [| exact Hall].
    intros r [Hw _]. exact Hw. }
  rewrite Forall_forall in Hwin.
  assert (Hends : start_date_gen <= end_date_gen) by (vm_compute; discriminate).
  assert (Hfirst : In start_date_gen (map Date df)).
  { destruct (count_date_pos_In start_date_gen df) as [r [Hin Hd]].
    - specialize (Hcount start_date_gen). unfold in_window in Hcount. lia.
    - rewrite <- Hd. apply in_map, Hin. }
  assert (Hlast : In end_date_gen (map Date df)).
  { destruct (count_date_pos_In end_date_gen df) as [r [Hin Hd]].
    - specialize (Hcount end_date_gen). unfold in_window in Hcount. lia.
    - rewrite <- Hd. apply in_map, Hin. }
  assert (Hne : map Date df <> []) by (intros E; rewrite E in Hfirst; exact Hfirst).
  split.
  - destruct (series_min_some _ Hne) as [m Hm]. rewrite Hm. f_equal.
    destruct (series_min_spec _ _ Hm) as [Hin Hle].
    rewrite Forall_forall in Hle.
    specialize (Hle _ Hfirst). specialize (Hwin _ Hin). lia.
  - destruct (series_max_some _ Hne) as [m Hm]. rewrite Hm. f_equal.
    destruct (series_max_spec _ _ Hm) as [Hin Hle].
    rewrite Forall_forall in Hle.
    specialize (Hle _ Hlast). specialize (Hwin _ Hin). lia.
Qed.

(** X6: the log has between 1645 and 4606 records, is in chronological order,
    and its first and last day are the two ends of the generation range:
    [df['Date'].min()] is 2024-01-01 and [df['Date'].max()] is
    2024-11-24. *)
Theorem generated_log_shape :
  forall (R : RandomState) (ok : RandomStateOk R) (g : rng_state),
    let df := fst (generate_sales_data g) in
    1645 <= Z.of_nat (List.length df) <= 4606 /\
    date_ordered df /\
    series_min (map Date df) = Some (Calendar.datetime 2024 1 1) /\
    series_max (map Date df) = Some (Calendar.datetime 2024 11 24).
Proof.
  intros R ok g df.
  destruct (generate_sales_data_shape ok g) as [Hlen Hord].
  destruct (generate_sales_data_min_max ok g) as [Hmin Hmax].
  fold df in Hlen, Hord, Hmin, Hmax.
  split; [exact Hlen |]. split; [exact Hord |].
  split; [exact Hmin | exact Hmax].
Qed.

Lemma generated_log_shape_witness :
  RandomStateOk Lcg.lcg /\
  let df := fst (@generate_sales_data Lcg.lcg 0) in
  1645 <= Z.of_nat (List.length df) <= 4606 /\
  date_ordered df /\
  series_min (map Date df) = Some (Calendar.datetime 2024 1 1) /\
  series_max (map Date df) = Some (Calendar.datetime 2024 11 24).
Proof.
  split; [exact lcg_ok |].
  exact (generated_log_shape Lcg.lcg lcg_ok 0).
Defined.

(** ** Revenue of the generated records *)

Lemma round_half_even_inject_Z (n : Z) : round_half_even (inject_Z n) = n.
Proof.
  unfold round_half_even. rewrite Qfloor_Z.
  assert (H : (inject_Z n - inject_Z n < 1 # 2)%Q) by lra.
  rewrite (proj1 (Qlt_alt _ _) H). reflexivity.
Qed.

Lemma round2_whole (n : Z) : (round2 (inject_Z n) == inject_Z n)%Q.
Proof.
  unfold round2. change (inject_Z n * 100)%Q with (inject_Z (n * 100)).
  rewrite round_half_even_inject_Z. unfold Qeq. simpl. lia.
Qed.

Lemma price_range_whole (category : string) :
  exists a b : Z,
    price_range_of category = (inject_Z a, inject_Z b) /\
    20 <= a /\ a < b /\ b <= 2000.
Proof.
  unfold price_range_of.
  destruct (String.eqb category "Computers");
    [exists 500, 2000
    | destruct (String.eqb category "Electronics");
      [exists 300, 1200
      | destruct (String.eqb category "Audio");
        [exists 50, 400 | exists 20, 150]]];
    (split; [reflexivity | lia]).
Qed.

Lemma category_of_declared (product : string) :
  In (category_of product) categories.
Proof.
  unfold category_of, categories.
  destruct (isin product ["Laptop"; "Monitor"]);
    [| destruct (isin product ["Smartphone"; "Tablet"]);
       [| destruct (isin product ["Headphones"; "Webcam"])]];
    simpl; tauto.
Qed.

Lemma drawn_ok_revenue (date : Z) (r : row) :
  drawn_ok date r ->
  (fst (price_range_of (Category r)) * inject_Z (Quantity r) <= Revenue r)%Q /\
  (Revenue r <= snd (price_range_of (Category r)) * inject_Z (Quantity r))%Q /\
  (20 <= Revenue r)%Q /\ (Revenue r <= 18000)%Q.
Proof.
  intros [_ [_ [_ [_ [Hq [price [Hlo [Hhi [_ Hrev]]]]]]]]].
  destruct (price_range_whole (Category r)) as [a [b [E [Ha [Hab Hb]]]]].
  rewrite E in *. simpl fst in *. simpl snd in *.
  assert (Hq0 : (0 <= inject_Z (Quantity r))%Q)
    by (change 0%Q with (inject_Z 0); rewrite <- Zle_Qle; lia).
  assert (H1 : (round2 (inject_Z a * inject_Z (Quantity r)) <= Revenue r)%Q).
  { rewrite Hrev. apply round2_mono, Qmult_le_compat_r; assumption. }
  assert (H2 : (Revenue r <= round2 (inject_Z b * inject_Z (Quantity r)))%Q).
  { rewrite Hrev. apply round2_mono, Qmult_le_compat_r;
      [apply Qlt_le_weak |]; assumption. }
  change (inject_Z a * inject_Z (Quantity r))%Q
    with (inject_Z (a * Quantity r)) in *.
  change (inject_Z b * inject_Z (Quantity r))%Q
    with (inject_Z (b * Quantity r)) in *.
  rewrite round2_whole in H1, H2.
  split; [exact H1 |]. split; [exact H2 |]. split.
  - eapply Qle_trans; [| exact H1].
    change 20%Q with (inject_Z 20). rewrite <- Zle_Qle. nia.
  - eapply Qle_trans; [exact H2 |].
    change 18000%Q with (inject_Z 18000). rewrite <- Zle_Qle. nia.
Qed.

(** X7: every record of the generated log has a category among the four
    declared at line 20, and a revenue between the lower and the upper
    bound of its category's price range times its quantity; so every
    revenue lies between 20 and 18000. *)
Theorem generated_revenue_bounds :
  forall (R : RandomState) (ok : RandomStateOk R) (g : rng_state) (r : row),
    In r (fst (generate_sales_data g)) ->
    In (Category r) categories /\
    (fst (price_range_of (Category r)) * inject_Z (Quantity r) <= Revenue r)%Q /\
    (Revenue r <= snd (price_range_of (Category r)) * inject_Z (Quantity r))%Q /\
    (20 <= Revenue r)%Q /\ (Revenue r <= 18000)%Q.
Proof.
  intros R ok g r Hin.
  destruct (generate_sales_data_spec ok g) as [Hall _].
  rewrite Forall_forall in Hall. destruct (Hall r Hin) as [_ Hok].
  split.
  - destruct Hok as [_ [_ [Hc _]]]. rewrite Hc. apply category_of_declared.
  - exact (drawn_ok_revenue _ r Hok).
Qed.

Lemma generated_revenue_bounds_witness :
  RandomStateOk Lcg.lcg /\
  let r := {| Date := 738886; Product := "Smartphone";
              Category := "Electronics"; Region := "Europe"; Quantity := 6;
              Unit_Price := (76784 # 100)%Q; Revenue := (460702 # 100)%Q |} in
  In r (fst (@generate_sales_data Lcg.lcg 0)) /\
  In (Category r) categories /\
  (fst (price_range_of (Category r)) * inject_Z (Quantity r) <= Revenue r)%Q /\
  (Revenue r <= snd (price_range_of (Category r)) * inject_Z (Quantity r))%Q /\
  (20 <= Revenue r)%Q /\ (Revenue r <= 18000)%Q.
Proof.
  split; [exact lcg_ok |].
  assert (Hin : In {| Date := 738886; Product := "Smartphone";
                      Category := "Electronics"; Region := "Europe";
                      Quantity := 6; Unit_Price := (76784 # 100)%Q;
                      Revenue := (460702 # 100)%Q |}
                   (fst (@generate_sales_data Lcg.lcg 0))).
  { apply (nth_error_In _ 0). vm_compute. reflexivity. }
  split; [exact Hin |].
  exact (generated_revenue_bounds Lcg.lcg lcg_ok 0 _ Hin).
Defined.

(** ** KPIs of the generated log *)

Lemma sumQ_bounds (lo hi : Q) (l : list Q) :
  Forall (fun x => (lo <= x)%Q /\ (x <= hi)%Q) l ->
  (lo * inject_Z (Z.of_nat (List.length l)) <= sumQ l)%Q /\
  (sumQ l <= hi * inject_Z (Z.of_nat (List.length l)))%Q.
Proof.
  induction 1 as [| x l [Hlo Hhi] _ [IH1 IH2]].
  - change (sumQ []) with 0%Q.
    change (inject_Z (Z.of_nat (List.length (@nil Q)))) with 0%Q.
    assert (E1 : (lo * 0 == 0)%Q) by ring.
    assert (E2 : (hi * 0 == 0)%Q) by ring.
    rewrite E1, E2. split; lra.
  - rewrite sumQ_cons. simpl List.length.
    rewrite Nat2Z.inj_succ, <- Z.add_1_r, inject_Z_plus.
    change (inject_Z 1) with 1%Q.
    set (n := inject_Z (Z.of_nat (List.length l))) in *.
    assert (E1 : (lo * (n + 1) == lo * n + lo)%Q) by ring.
    assert (E2 : (hi * (n + 1) == hi * n + hi)%Q) by ring.
    rewrite E1, E2. split; lra.
Qed.

Lemma sumZ_cons (x : Z) (l : list Z) : sumZ (x :: l) = x + sumZ l.
Proof.
  unfold sumZ at 1. simpl. rewrite fold_left_Zplus. reflexivity.
Qed.

Lemma sumZ_bounds (lo hi : Z) (l : list Z) :
  Forall (fun x => lo <= x <= hi) l ->
  lo * Z.of_nat (List.length l) <= sumZ l <= hi * Z.of_nat (List.length l).
Proof.
  induction 1 as [| x l Hx _ IH].
  - unfold sumZ. simpl. lia.
  - rewrite sumZ_cons. simpl List.length. lia.
Qed.

Lemma Forall_filtered_df (P : row -> Prop) (df : list row) (sel : selection) :
  Forall P df -> Forall P (filtered_df df sel).
Proof.
  rewrite !Forall_forall. intros H r Hr. apply H.
  apply filtered_df_In in Hr. apply Hr.
Qed.

(** X8: for the generated log and any selection: the units sold lie between
    the number of transactions and nine times that number, the total
    revenue between 20 and 18000 times that number, the average
    transaction between 20 and 18000 when there is a transaction; and the
    growth rate takes its zero fallback exactly when the previous-period
    subset is empty. *)
Theorem generated_kpi_bounds :
  forall (R : RandomState) (ok : RandomStateOk R) (g : rng_state)
         (sel : selection),
    let df := fst (generate_sales_data g) in
    let n := total_transactions df sel in
    n <= total_quantity df sel <= 9 * n /\
    (20 * inject_Z n <= total_revenue df sel)%Q /\
    (total_revenue df sel <= 18000 * inject_Z n)%Q /\
    (0 < n ->
     (20 <= avg_transaction df sel)%Q /\ (avg_transaction df sel <= 18000)%Q) /\
    (previous_df df sel = [] -> growth_rate df sel = 0%Q) /\
    (previous_df df sel <> [] ->
     (0 < previous_revenue df sel)%Q /\
     (growth_rate df sel
        == (current_revenue df sel - previous_revenue df sel)
           / previous_revenue df sel * 100)%Q).
Proof.
  intros R ok g sel df n.
  assert (Hrec : Forall (fun r => 1 <= Quantity r <= 9 /\
                                  (20 <= Revenue r)%Q /\ (Revenue r <= 18000)%Q) df).
  { apply Forall_forall. intros r Hin.
    destruct (generate_sales_data_spec ok g) as [Hall _].
    rewrite Forall_forall in Hall. destruct (Hall r Hin) as [_ Hok].
    destruct (drawn_ok_revenue _ r Hok) as [_ [_ [H1 H2]]].
    destruct Hok as [_ [_ [_ [_ [Hq _]]]]]. repeat split; try lia; assumption. }
  assert (Hf := Forall_filtered_df _ df sel Hrec).
  assert (HQ : (20 * inject_Z n <= total_revenue df sel)%Q /\
               (total_revenue df sel <= 18000 * inject_Z n)%Q).
  { unfold n, total_transactions, total_revenue.
    rewrite <- (length_map Revenue). apply sumQ_bounds.
    apply Forall_map. eapply Forall_impl; [| exact Hf].
    intros r [_ H]. exact H. }
  split; [| split; [apply HQ | split; [apply HQ | split; [| split]]]].
  - unfold n, total_transactions, total_quantity.
    rewrite <- (length_map Quantity).
    pose proof (sumZ_bounds 1 9 (map Quantity (filtered_df df sel))) as H.
    rewrite length_map in *.
    assert (Hq : Forall (fun x => 1 <= x <= 9) (map Quantity (filtered_df df sel))).
    { apply Forall_map. eapply Forall_impl; [| exact Hf].
      intros r [H1 _]. exact H1. }
    specialize (H Hq). lia.
  - intros Hn.
    assert (E : (avg_transaction df sel * inject_Z n
                   == total_revenue df sel)%Q).
    { unfold avg_transaction, total_revenue.
      unfold n, total_transactions in Hn |- *.
      rewrite (proj2 (Z.ltb_lt _ _) Hn), <- (length_map Revenue).
      apply mean_times_length. intros E0. apply map_eq_nil in E0.
      rewrite E0 in Hn. simpl in Hn. lia. }
    destruct HQ as [H1 H2]. rewrite <- E in H1, H2.
    assert (Hn' : (0 < inject_Z n)%Q)
      by (change 0%Q with (inject_Z 0); rewrite <- Zlt_Qlt; exact Hn).
    split.
    + apply (Qmult_le_r _ _ (inject_Z n) Hn'). exact H1.
    + apply (Qmult_le_r _ _ (inject_Z n) Hn'). exact H2.
  - intros E. unfold growth_rate, previous_revenue. rewrite E.
    apply growth_rate_of_nonpos. unfold sumQ. simpl. lra.
  - intros Hne.
    assert (Hp : (0 < previous_revenue df sel)%Q).
    { unfold previous_revenue. rewrite previous_df_as_filtered in *.
      assert (Hfp := Forall_filtered_df _ df (previous_selection sel) Hrec).
      destruct (filtered_df df (previous_selection sel)) as [| r l];
        [congruence |].
      simpl map. rewrite sumQ_cons.
      inversion Hfp as [| ? ? [_ [Hr _]] Hl]; subst.
      assert (0 <= sumQ (map Revenue l))%Q.
      { apply sumQ_nonneg, Forall_map. eapply Forall_impl; [| exact Hl].
        intros x [_ [Hx _]]. simpl. lra. }
      lra. }
    split; [exact Hp |].
    unfold growth_rate. rewrite (growth_rate_of_pos _ _ Hp). reflexivity.
Qed.

Lemma generated_kpi_bounds_witness :
  RandomStateOk Lcg.lcg /\
  let df := fst (@generate_sales_data Lcg.lcg 0) in
  let sel := mkSelection 738900 738910 ["Computers"] ["Asia"; "Europe"]
               ["Laptop"; "Monitor"] in
  0 < total_transactions df sel /\
  total_transactions df sel <= total_quantity df sel
    <= 9 * total_transactions df sel /\
  (20 <= avg_transaction df sel)%Q /\ (avg_transaction df sel <= 18000)%Q.
Proof.
  split; [exact lcg_ok |]. intros df sel.
  assert (Hn : 0 < total_transactions df sel) by (vm_compute; reflexivity).
  destruct (generated_kpi_bounds Lcg.lcg lcg_ok 0 sel)
    as [Hq [_ [_ [Havg _]]]].
  split; [exact Hn |]. split; [exact Hq |]. exact (Havg Hn).
Defined.

(** * Further properties of the grouped tables *)

Section GroupByTables.

Context {K V : Type}.
Variable cmp : K -> K -> comparison.
Variable add : V -> V -> V.
Variable pr : V -> Q.

Hypothesis cmp_eq : forall a b, cmp a b = Eq <-> a = b.
Hypothesis cmp_antisym : forall a b, cmp a b = CompOpp (cmp b a).
Hypothesis cmp_trans : forall a b c, cmp a b = Lt -> cmp b c = Lt -> cmp a c = Lt.
Hypothesis pr_add : forall a b, (pr (add a b) == pr a + pr b)%Q.



Lemma group_add_keys_iff (k0 k : K) (v : V) (acc : list (K * V)) :
  In k0 (map fst (group_add cmp add k v acc)) <->
  k0 = k \/ In k0 (map fst acc).
Proof.
  induction acc as [| [k' v'] acc IH]; simpl.
  - intuition.
  - destruct (cmp k k') eqn:Hc; simpl.
    + apply cmp_eq in Hc. subst k'. intuition.
    + intuition.
    + rewrite IH. intuition.
Qed.

Lemma keys_sorted_NoDup (acc : list (K * V)) :
  keys_sorted cmp acc -> NoDup (map fst acc).
Proof.
  unfold keys_sorted.
  induction 1 as [| e acc Hs IH Hall]; simpl; constructor; [| exact IH].
  intros Hin. apply in_map_iff in Hin. destruct Hin as [e' [He Hin]].
  rewrite Forall_forall in Hall. specialize (Hall e' Hin).
  rewrite He in Hall.
  assert (E : cmp (fst e) (fst e) = Eq) by (apply cmp_eq; reflexivity).
  congruence.
Qed.

Variable key : row -> K.
Variable val : row -> V.


Lemma groupby_fold_keys (k : K) (df : list row) :
  forall acc,
  In k (map fst
     (fold_left (fun acc r => group_add cmp add (key r) (val r) acc) df acc))
  <-> In k (map fst acc) \/ exists r, In r df /\ key r = k.
Proof.
  induction df as [| r df IH]; intros acc; simpl.
  - split; [tauto | intros [H | [r [[] _]]]; exact H].
  - rewrite IH, group_add_keys_iff. split.
    + intros [[-> | H] | [r' [Hin Hk]]].
      * right. exists r. auto.
      * left. exact H.
      * right. exists r'. auto.
    + intros [H | [r' [[<- | Hin] Hk]]].
      * left. right. exact H.
      * left. left. symmetry. exact Hk.
      * right. exists r'. auto.
Qed.


(** A grouped table has an entry for exactly the keys of the frame. *)
Lemma groupby_sum_keys (k : K) (df : list row) :
  In k (map fst (groupby_sum cmp add key val df)) <->
  exists r, In r df /\ key r = k.
Proof.
  unfold groupby_sum. rewrite groupby_fold_keys. simpl. tauto.
Qed.

Lemma groupby_sum_sorted (df : list row) :
  keys_sorted cmp (groupby_sum cmp add key val df).
Proof.
  apply (groupby_fold_sorted cmp add cmp_antisym cmp_trans key val df []).
  constructor.
Qed.

Lemma groupby_sum_NoDup (df : list row) :
  NoDup (map fst (groupby_sum cmp add key val df)).
Proof.
  apply keys_sorted_NoDup, groupby_sum_sorted.
Qed.

Lemma groupby_sum_nil_iff (df : list row) :
  groupby_sum cmp add key val df = [] <-> df = [].
Proof.
  split.
  - intros E. destruct df as [| r df]; [reflexivity |]. exfalso.
    assert (H : In (key r) (map fst (groupby_sum cmp add key val (r :: df)))).
    { apply groupby_sum_keys. exists r. split; [left |]; reflexivity. }
    rewrite E in H. exact H.
  - intros ->. reflexivity.
Qed.

End GroupByTables.

(** ** Sorting keeps the entries *)

Section SortMore.

Context {E : Type} (by_ : E -> Q).

Lemma insert_desc_perm (x : E) (l : list E) :
  Permutation (insert_desc by_ x l) (x :: l).
Proof.
  induction l as [| y l IH]; simpl; [reflexivity |].
  destruct (Qle_bool (by_ y) (by_ x)); [reflexivity |].
  rewrite IH. apply perm_swap.
Qed.

Lemma sort_values_desc_perm (l : list E) :
  Permutation (sort_values_desc by_ l) l.
Proof.
  induction l as [| x l IH]; simpl; [reflexivity |].
  rewrite insert_desc_perm. constructor. exact IH.
Qed.

Lemma sort_values_desc_nil_iff (l : list E) :
  sort_values_desc by_ l = [] <-> l = [].
Proof.
  split; intros H.
  - apply Permutation_nil. rewrite <- H. apply sort_values_desc_perm.
  - subst. reflexivity.
Qed.

(** In a descending list nothing after the first [n] entries is larger
    than any of the first [n]. *)
Lemma head_dominates (n : nat) (l : list E) (e e' : E) :
  sorted_desc by_ l -> In e (head n l) -> In e' (skipn n l) ->
  (by_ e' <= by_ e)%Q.
Proof.
  unfold sorted_desc, head. intros H. revert n.
  induction H as [| y l Hs IH Hy]; intros [| n]; simpl; try tauto.
  intros [<- | Hin] Hin'.
  - rewrite Forall_forall in Hy. apply Hy.
    rewrite <- (firstn_skipn n l). apply in_or_app. right. exact Hin'.
  - apply (IH n); assumption.
Qed.

Lemma head_all (n : nat) (l : list E) :
  (List.length l <= n)%nat -> head n l = l.
Proof. apply firstn_all2. Qed.

End SortMore.





(** ** The tables of the dashboard *)


Lemma add_rev_qty_revenue (a b : Q * Z) :
  (fst (add_rev_qty a b) == fst a + fst b)%Q.
Proof. reflexivity. Qed.

Lemma add_qty_rev_revenue (a b : Z * Q) :
  (snd (add_qty_rev a b) == snd a + snd b)%Q.
Proof. reflexivity. Qed.




Lemma groupby_length_le {V : Type} (add : V -> V -> V) (key : row -> string)
    (val : row -> V) (catalog : list string) (df : list row) :
  Forall (fun r => In (key r) catalog) df ->
  (List.length (groupby_sum String.compare add key val df)
   <= List.length catalog)%nat.
Proof.
  intros H. rewrite <- (length_map fst).
  apply NoDup_incl_length.
  - apply groupby_sum_NoDup.
    + exact String_as_OT.cmp_eq.
    + exact String_as_OT.cmp_antisym.
    + exact string_compare_trans.
  - intros k Hk.
    apply (groupby_sum_keys String.compare add String_as_OT.cmp_eq) in Hk.
    destruct Hk as [r [Hin <-]]. rewrite Forall_forall in H. apply H, Hin.
Qed.

Lemma head_nil_iff {E : Type} (n : nat) (l : list E) :
  head (S n) l = [] <-> l = [].
Proof.
  unfold head. destruct l; simpl; split; congruence.
Qed.

Lemma skipn_In_length {E : Type} (n : nat) (x : E) (l : list E) :
  In x (skipn n l) -> List.length (head n l) = n.
Proof.
  intros H. unfold head. apply firstn_length_le.
  assert (Hl : List.length (skipn n l) <> 0%nat)
    by (destruct (skipn n l); [destruct H | discriminate]).
  rewrite length_skipn in Hl. lia.
Qed.


Lemma sample_log_catalog :
  Forall (fun r => In (Product r) products) sample_log /\
  Forall (fun r => In (Region r) regions) sample_log.
Proof.
  split; apply Forall_forall; intros r Hr; simpl in Hr;
    repeat (destruct Hr as [<- | Hr]; [simpl; tauto |]); destruct Hr.
Qed.


Lemma add_rev_qty_quantity (a b : Q * Z) :
  (inject_Z (snd (add_rev_qty a b)) == inject_Z (snd a) + inject_Z (snd b))%Q.
Proof.
  simpl. rewrite inject_Z_plus. reflexivity.
Qed.

(** X13: lines 246-249 on a log whose regions all belong to the catalog of
    five: [head(5)] cuts nothing off, so the table lists every region that
    has a filtered record, each once, in descending order of revenue, with
    the summed revenue and quantity of the region. *)
Theorem top_regions_complete :
  forall (df : list row) (sel : selection),
    Forall (fun r => In (Region r) regions) df ->
    sorted_desc (fun e => fst (snd e)) (top_regions df sel) /\
    NoDup (map fst (top_regions df sel)) /\
    (forall g : string,
        In g (map fst (top_regions df sel)) <->
        exists r, In r (filtered_df df sel) /\ Region r = g) /\
    (forall (g : string) (v : Q) (q : Z),
        In (g, (v, q)) (top_regions df sel) ->
        (v == sumQ (map Revenue
                     (filter (fun r => String.eqb (Region r) g)
                             (filtered_df df sel))))%Q /\
        q = sumZ (map Quantity
                     (filter (fun r => String.eqb (Region r) g)
                             (filtered_df df sel)))).
Proof.
  intros df sel Hcat. unfold top_regions.
  set (val := fun r : row => (Revenue r, Quantity r)).
  set (t := groupby_sum String.compare add_rev_qty Region val (filtered_df df sel)).
  set (by_ := fun e : string * (Q * Z) => fst (snd e)).
  assert (Hp : Permutation (sort_values_desc by_ t) t)
    by apply sort_values_desc_perm.
  assert (E : head 5 (sort_values_desc by_ t) = sort_values_desc by_ t).
  { apply head_all. rewrite (Permutation_length Hp).
    apply (groupby_length_le add_rev_qty Region val regions).
    apply Forall_filtered_df, Hcat. }
  rewrite E. split; [apply sort_values_desc_sorted |].
  split; [| split].
  - apply (Permutation_NoDup (l := map fst t)).
    + symmetry. apply Permutation_map, Hp.
    + apply groupby_sum_NoDup.
      * exact String_as_OT.cmp_eq.
      * exact String_as_OT.cmp_antisym.
      * exact string_compare_trans.
  - intros g.
    rewrite <- (groupby_sum_keys String.compare add_rev_qty String_as_OT.cmp_eq
                  Region val g (filtered_df df sel)).
    fold t. split; apply Permutation_in, Permutation_map;
      [exact Hp | symmetry; exact Hp].
  - intros g v q Hin. apply (Permutation_in _ Hp) in Hin. split.
    + apply (groupby_sum_entry String.compare String.eqb add_rev_qty fst
               String_as_OT.cmp_eq String_as_OT.cmp_antisym
               string_compare_trans String.eqb_eq add_rev_qty_revenue
               Region val g (v, q) _ Hin).
    + pose proof (groupby_sum_entry String.compare String.eqb add_rev_qty
               (fun x => inject_Z (snd x))
               String_as_OT.cmp_eq String_as_OT.cmp_antisym
               string_compare_trans String.eqb_eq
               add_rev_qty_quantity
               Region val g (v, q) _ Hin) as Hq.
      simpl in Hq.
      rewrite <- (map_map Quantity inject_Z), sumQ_inject_Z in Hq.
      exact (proj1 (inject_Z_injective _ _) Hq).
Qed.

Lemma top_regions_complete_witness :
  Forall (fun r => In (Region r) regions) sample_log /\
  map fst (top_regions sample_log sample_selection) = ["Asia"; "Europe"] /\
  NoDup (map fst (top_regions sample_log sample_selection)).
Proof.
  destruct sample_log_catalog as [_ Hcat].
  split; [exact Hcat |]. split; [vm_compute; reflexivity |].
  exact (proj1 (proj2 (top_regions_complete sample_log sample_selection Hcat))).
Defined.

(** X14: lines 237-240: a product that has filtered records is either listed
    in the top-selling table, or the table is full (five entries) and the
    product's summed revenue is no larger than that of any listed entry. *)
Theorem top_products_best :
  forall (df : list row) (sel : selection) (p : string),
    (exists r, In r (filtered_df df sel) /\ Product r = p) ->
    (exists (q : Z) (v : Q), In (p, (q, v)) (top_products df sel)) \/
    (List.length (top_products df sel) = 5%nat /\
     forall e, In e (top_products df sel) ->
       (sumQ (map Revenue (of_product p (filtered_df df sel)))
          <= snd (snd e))%Q).
Proof.
  intros df sel p Hp. unfold top_products.
  set (val := fun r : row => (Quantity r, Revenue r)).
  set (t := groupby_sum String.compare add_qty_rev Product val (filtered_df df sel)).
  set (by_ := fun e : string * (Z * Q) => snd (snd e)).
  apply (groupby_sum_keys String.compare add_qty_rev String_as_OT.cmp_eq
           Product val p (filtered_df df sel)) in Hp.
  fold t in Hp. apply in_map_iff in Hp.
  destruct Hp as [[p' [q v]] [Hfst Hin]]. simpl in Hfst. subst p'.
  assert (Hv : (v == sumQ (map Revenue (of_product p (filtered_df df sel))))%Q).
  { apply (product_entry_revenue add_qty_rev snd val p (q, v) _
             add_qty_rev_revenue Hin). }
  assert (Hs : In (p, (q, v)) (sort_values_desc by_ t)).
  { apply (Permutation_in _ (Permutation_sym (sort_values_desc_perm by_ t))).
    exact Hin. }
  rewrite <- (firstn_skipn 5 (sort_values_desc by_ t)) in Hs.
  apply in_app_or in Hs. destruct Hs as [Hs | Hs].
  - left. exists q, v. exact Hs.
  - right. split.
    + apply (skipn_In_length 5 _ _ Hs).
    + intros e He. rewrite <- Hv.
      apply (head_dominates by_ 5 (sort_values_desc by_ t) e (p, (q, v))).
      * apply sort_values_desc_sorted.
      * exact He.
      * exact Hs.
Qed.

Lemma top_products_best_witness :
  (exists r, In r (filtered_df six_product_log whole_selection) /\
             Product r = "Mouse") /\
  List.length (top_products six_product_log whole_selection) = 5%nat /\
  forall e, In e (top_products six_product_log whole_selection) ->
    (sumQ (map Revenue
             (of_product "Mouse" (filtered_df six_product_log whole_selection)))
       <= snd (snd e))%Q.
Proof.
  assert (H : exists r, In r (filtered_df six_product_log whole_selection) /\
                        Product r = "Mouse").
  { exists (mkRow 738901 "Mouse" "Accessories" "Asia" 1 (2000 # 100) (2000 # 100)).
    split; [right; left; reflexivity | reflexivity]. }
  split; [exact H |].
  destruct (top_products_best six_product_log whole_selection "Mouse" H)
    as [[q [v Hl]] | Hr]; [| exact Hr].
  exfalso. vm_compute in Hl.
  repeat (destruct Hl as [Hl | Hl]; [discriminate Hl |]). exact Hl.
Defined.

(** X15: each of the six tables is empty exactly when the filtered subset is
    empty. *)
Theorem tables_empty_iff :
  forall (df : list row) (sel : selection),
    (daily_revenue df sel = [] <-> filtered_df df sel = []) /\
    (category_revenue df sel = [] <-> filtered_df df sel = []) /\
    (region_revenue df sel = [] <-> filtered_df df sel = []) /\
    (product_revenue df sel = [] <-> filtered_df df sel = []) /\
    (top_products df sel = [] <-> filtered_df df sel = []) /\
    (top_regions df sel = [] <-> filtered_df df sel = []).
Proof.
  intros df sel.
  unfold daily_revenue, category_revenue, region_revenue, product_revenue,
    top_products, top_regions.
  rewrite !head_nil_iff, !sort_values_desc_nil_iff.
  repeat split; intros H;
    try (apply groupby_sum_nil_iff in H;
         [exact H | exact Z.compare_eq_iff || exact String_as_OT.cmp_eq]);
    rewrite H; reflexivity.
Qed.

(** * The sidebar *)

Lemma unique_In (x : string) (xs : list string) :
  In x (unique xs) <-> In x xs.
Proof.
  induction xs as [| y xs IH]; simpl; [tauto |].
  rewrite filter_In, IH, negb_true_iff, String.eqb_neq.
  destruct (String.eqb_spec y x) as [-> | Hne]; [tauto |].
  intuition congruence.
Qed.

Lemma unique_NoDup (xs : list string) : NoDup (unique xs).
Proof.
  induction xs as [| y xs IH]; simpl; constructor.
  - rewrite filter_In, negb_true_iff, String.eqb_neq. tauto.
  - apply NoDup_filter, IH.
Qed.

Lemma insert_sorted_perm (x : string) (l : list string) :
  Permutation (insert_sorted x l) (x :: l).
Proof.
  induction l as [| y l IH]; simpl; [reflexivity |].
  destruct (String.compare x y); try reflexivity.
  rewrite IH. apply perm_swap.
Qed.

Lemma sorted_perm (l : list string) : Permutation (sorted l) l.
Proof.
  induction l as [| x l IH]; simpl; [reflexivity |].
  rewrite insert_sorted_perm. constructor. exact IH.
Qed.

Lemma string_le_trans (a b c : string) :
  String.compare a b <> Gt -> String.compare b c <> Gt ->
  String.compare a c <> Gt.
Proof.
  intros H1 H2.
  destruct (String.compare a b) eqn:E1; [| | congruence].
  - apply String_as_OT.cmp_eq in E1. subst. exact H2.
  - destruct (String.compare b c) eqn:E2; [| | congruence].
    + apply String_as_OT.cmp_eq in E2. subst. rewrite E1. discriminate.
    + rewrite (string_compare_trans a b c E1 E2). discriminate.
Qed.

Lemma insert_sorted_sorted (x : string) (l : list string) :
  StronglySorted (fun a b => String.compare a b <> Gt) l ->
  StronglySorted (fun a b => String.compare a b <> Gt) (insert_sorted x l).
Proof.
  induction 1 as [| y l Hs IH Hy]; simpl.
  - constructor; constructor.
  - destruct (String.compare x y) eqn:Hc.
    + constructor; [constructor; assumption |].
      constructor; [rewrite Hc; discriminate |].
      eapply Forall_impl; [| exact Hy]. intros z Hz. simpl in Hz.
      apply (string_le_trans x y z); [rewrite Hc; discriminate | exact Hz].
    + constructor; [constructor; assumption |].
      constructor; [rewrite Hc; discriminate |].
      eapply Forall_impl; [| exact Hy]. intros z Hz. simpl in Hz.
      apply (string_le_trans x y z); [rewrite Hc; discriminate | exact Hz].
    + constructor; [exact IH |].
      apply Forall_forall. intros z Hz.
      apply (Permutation_in _ (insert_sorted_perm x l)) in Hz.
      destruct Hz as [<- | Hz].
      * rewrite String_as_OT.cmp_antisym. fold (String.compare x y).
        change (String_as_OT.cmp x y) with (String.compare x y).
        rewrite Hc. discriminate.
      * rewrite Forall_forall in Hy. apply Hy, Hz.
Qed.

Lemma sorted_sorted (l : list string) :
  StronglySorted (fun a b => String.compare a b <> Gt) (sorted l).
Proof.
  induction l as [| x l IH]; simpl.
  - constructor.
  - apply insert_sorted_sorted, IH.
Qed.

Lemma sorted_NoDup_strict (l : list string) :
  StronglySorted (fun a b => String.compare a b <> Gt) l -> NoDup l ->
  StronglySorted (fun a b => String.compare a b = Lt) l.
Proof.
  induction 1 as [| x l Hs IH Hx]; intros Hnd; constructor;
    inversion Hnd as [| ? ? Hnotin Hnd']; subst.
  - apply IH, Hnd'.
  - apply Forall_forall. intros z Hz. rewrite Forall_forall in Hx.
    specialize (Hx z Hz). simpl in Hx.
    destruct (String.compare x z) eqn:E; [| reflexivity | congruence].
    apply String_as_OT.cmp_eq in E. subst. contradiction.
Qed.

Lemma multiselect_options_In (column : list string) (x : string) :
  In x (multiselect_options column) <-> In x column.
Proof.
  unfold multiselect_options.
  assert (Hp := sorted_perm (unique column)). split; intros H.
  - apply unique_In. apply (Permutation_in _ Hp H).
  - apply (Permutation_in _ (Permutation_sym Hp)). apply unique_In, H.
Qed.

(** X16: lines 77-93: the options of a multiselect are exactly the values of
    the column, each once, in strictly increasing order. *)
Theorem multiselect_options_spec :
  forall (column : list string),
    (forall x, In x (multiselect_options column) <-> In x column) /\
    StronglySorted (fun a b => String.compare a b = Lt)
      (multiselect_options column) /\
    NoDup (multiselect_options column).
Proof.
  intros column.
  split; [intros x; apply multiselect_options_In |].
  unfold multiselect_options.
  assert (Hnd : NoDup (sorted (unique column))).
  { apply (Permutation_NoDup (Permutation_sym (sorted_perm (unique column)))).
    apply unique_NoDup. }
  split; [| exact Hnd].
  apply sorted_NoDup_strict; [apply sorted_sorted | exact Hnd].
Qed.

Lemma filter_all {A : Type} (f : A -> bool) (l : list A) :
  (forall x, In x l -> f x = true) -> filter f l = l.
Proof.
  induction l as [| a l IH]; intros H; simpl; [reflexivity |].
  rewrite (H a (or_introl eq_refl)). f_equal. apply IH.
  intros x Hx. apply H. right. exact Hx.
Qed.

Lemma default_view (df : list row) (lo hi : Z) :
  series_min (map Date df) = Some lo ->
  series_max (map Date df) = Some hi ->
  let sel := {| start_date := lo;
                end_date := hi;
                selected_categories := multiselect_options (map Category df);
                selected_regions := multiselect_options (map Region df);
                selected_products := multiselect_options (map Product df) |} in
  default_selection df = Some sel /\
  filtered_df df sel = df /\
  previous_df df sel = [] /\
  growth_rate df sel = 0%Q.
Proof.
  intros Hlo Hhi sel.
  destruct (series_min_spec _ _ Hlo) as [_ Hmin].
  destruct (series_max_spec _ _ Hhi) as [_ Hmax].
  rewrite Forall_forall in Hmin, Hmax.
  assert (Hprev : previous_df df sel = []).
  { unfold previous_df, getitem_mask. apply filter_none.
    intros r Hr. specialize (Hmin _ (in_map Date _ _ Hr)).
    unfold previous_end. cbn [start_date sel].
    destruct (Date r <=? lo - 1) eqn:E;
      [apply Z.leb_le in E; lia |].
    rewrite andb_false_r. reflexivity. }
  split; [| split; [| split; [exact Hprev |]]].
  - unfold default_selection. rewrite Hlo, Hhi. reflexivity.
  - rewrite filtered_df_filter. apply filter_all. intros r Hr.
    apply matchesb_iff. unfold matches, in_window. simpl.
    specialize (Hmin _ (in_map Date _ _ Hr)).
    specialize (Hmax _ (in_map Date _ _ Hr)).
    repeat split; try lia; apply multiselect_options_In, in_map, Hr.
  - unfold growth_rate, previous_revenue. rewrite Hprev.
    apply growth_rate_of_nonpos. unfold sumQ. simpl. lra.
Qed.

(** X17: lines 62-101 before the user touches the sidebar: on a non-empty log
    the default selection keeps every record, the previous-period subset is
    empty and the growth rate is 0; on an empty log the date input has no
    default dates. *)
Theorem default_selection_shows_all :
  forall (df : list row),
    (df = [] -> default_selection df = None) /\
    (df <> [] ->
     exists sel,
       default_selection df = Some sel /\
       series_min (map Date df) = Some (start_date sel) /\
       series_max (map Date df) = Some (end_date sel) /\
       filtered_df df sel = df /\
       previous_df df sel = [] /\
       growth_rate df sel = 0%Q).
Proof.
  intros df. split; [intros ->; reflexivity |]. intros Hne.
  assert (Hne' : map Date df <> [])
    by (destruct df; [congruence | discriminate]).
  destruct (series_min_some _ Hne') as [lo Hlo].
  destruct (series_max_some _ Hne') as [hi Hhi].
  destruct (default_view df lo hi Hlo Hhi) as [Hsel [Hf [Hp Hg]]].
  eexists. split; [exact Hsel |].
  split; [exact Hlo |]. split; [exact Hhi |].
  split; [exact Hf |]. split; [exact Hp | exact Hg].
Qed.

Lemma default_selection_shows_all_witness :
  sample_log <> [] /\
  exists sel,
    default_selection sample_log = Some sel /\
    start_date sel = 738900 /\ end_date sel = 738930 /\
    selected_products sel = ["Laptop"; "Mouse"; "Tablet"] /\
    filtered_df sample_log sel = sample_log /\
    growth_rate sample_log sel = 0%Q.
Proof.
  assert (Hne : sample_log <> []) by discriminate.
  split; [exact Hne |].
  destruct (proj2 (default_selection_shows_all sample_log) Hne)
    as [sel [Hsel [_ [_ [Hf [_ Hg]]]]]].
  exists sel. split; [exact Hsel |].
  vm_compute in Hsel. injection Hsel as <-.
  split; [reflexivity |]. split; [reflexivity |]. split; [reflexivity |].
  split; [exact Hf | exact Hg].
Defined.

(** X18: the dashboard as it first renders on the generated log: the date
    input spans 2024-01-01 .. 2024-11-24 (329 days), the multiselects offer
    only catalog values, every record of the log is shown and the growth
    rate is 0. *)
Theorem generated_default_view :
  forall (R : RandomState) (ok : RandomStateOk R) (g : rng_state),
    let df := fst (generate_sales_data g) in
    exists sel,
      default_selection df = Some sel /\
      start_date sel = Calendar.datetime 2024 1 1 /\
      end_date sel = Calendar.datetime 2024 11 24 /\
      period_days sel = 329 /\
      incl (selected_categories sel) categories /\
      incl (selected_regions sel) regions /\
      incl (selected_products sel) products /\
      filtered_df df sel = df /\
      1645 <= total_transactions df sel <= 4606 /\
      growth_rate df sel = 0%Q.
Proof.
  intros R ok g df.
  destruct (generate_sales_data_shape ok g) as [Hlen _].
  destruct (generate_sales_data_min_max ok g) as [Hmin Hmax].
  fold df in Hlen, Hmin, Hmax.
  destruct (default_view df _ _ Hmin Hmax) as [Hsel [Hf [_ Hg]]].
  eexists. split; [exact Hsel |].
  split; [reflexivity |]. split; [reflexivity |].
  split; [vm_compute; reflexivity |].
  destruct (generate_sales_data_spec ok g) as [Hall _]. fold df in Hall.
  rewrite Forall_forall in Hall.
  split; [| split; [| split; [| split; [exact Hf | split; [| exact Hg]]]]].
  - simpl. intros c Hc.
    apply multiselect_options_In, in_map_iff in Hc.
    destruct Hc as [r [<- Hr]].
    destruct (Hall r Hr) as [_ [_ [_ [Hc _]]]]. rewrite Hc.
    apply category_of_declared.
  - simpl. intros c Hc.
    apply multiselect_options_In, in_map_iff in Hc.
    destruct Hc as [r [<- Hr]].
    destruct (Hall r Hr) as [_ [_ [_ [_ [Hc _]]]]]. exact Hc.
  - simpl. intros c Hc.
    apply multiselect_options_In, in_map_iff in Hc.
    destruct Hc as [r [<- Hr]].
    destruct (Hall r Hr) as [_ [_ [Hc _]]]. exact Hc.
  - unfold total_transactions. rewrite Hf. exact Hlen.
Qed.

Lemma generated_default_view_witness :
  RandomStateOk Lcg.lcg /\
  let df := fst (@generate_sales_data Lcg.lcg 0) in
  exists sel,
    default_selection df = Some sel /\
    start_date sel = Calendar.datetime 2024 1 1 /\
    end_date sel = Calendar.datetime 2024 11 24 /\
    period_days sel = 329 /\
    incl (selected_categories sel) categories /\
    incl (selected_regions sel) regions /\
    incl (selected_products sel) products /\
    filtered_df df sel = df /\
    1645 <= total_transactions df sel <= 4606 /\
    growth_rate df sel = 0%Q.
Proof.
  split; [exact lcg_ok |].
  exact (generated_default_view Lcg.lcg lcg_ok 0).
Defined.

(** X5: lines 72-75 and 103-113: the date input's tuple is rejected only
    when it is empty ([date_range[0]] fails); a tuple of one date selects
    exactly the records of that day, and the period it is compared with is
    the single day before. *)
Theorem single_date_selection :
  forall (date_range : list Z),
    (unpack_date_range date_range = None <-> date_range = []) /\
    forall (d : Z) (cats regs prods : list string) (df : list row),
      unpack_date_range [d] = Some (d, d) /\
      let sel := mkSelection d d cats regs prods in
      period_days sel = 1 /\
      previous_start sel = d - 1 /\
      previous_end sel = d - 1 /\
      (forall r, In r (filtered_df df sel) -> Date r = d) /\
      (forall r, In r (previous_df df sel) -> Date r = d - 1).
Proof.
  intros date_range. split.
  - destruct date_range as [| a [| b [| c l]]]; simpl; split;
      congruence.
  - intros d cats regs prods df. split; [reflexivity |].
    cbv zeta. unfold period_days, previous_start, previous_end, period_days.
    cbn [start_date end_date].
    split; [lia |]. split; [lia |]. split; [reflexivity |]. split.
    + intros r Hr. apply filtered_df_In in Hr.
      destruct Hr as [_ [Hw _]]. unfold in_window in Hw. simpl in Hw. lia.
    + intros r Hr. rewrite previous_df_as_filtered in Hr.
      apply filtered_df_In in Hr. destruct Hr as [_ [Hw _]].
      unfold in_window, previous_selection, previous_start, previous_end,
        period_days in Hw. simpl in Hw. lia.
Qed.

(** * The detail table *)

Lemma increasingb_sorted (l : list string) :
  increasingb l = true ->
  StronglySorted (fun a b => String.compare a b = Lt) l.
Proof.
  induction l as [| x l IH]; intros H; [constructor |].
  destruct l as [| y l]; [constructor; constructor |].
  simpl in H. destruct (String.compare x y) eqn:Hc; try discriminate.
  specialize (IH H). constructor; [exact IH |].
  constructor; [exact Hc |].
  inversion IH as [| ? ? _ Hy]; subst.
  eapply Forall_impl; [| exact Hy]. intros z Hz. simpl in Hz.
  apply (string_compare_trans x y z Hc Hz).
Qed.

Lemma sorted_map_mono {A : Type} (f : Z -> A) (rel : A -> A -> Prop)
    (l : list Z) :
  StronglySorted Z.lt l -> StronglySorted rel (map f l) ->
  forall x y, In x l -> In y l -> x < y -> rel (f x) (f y).
Proof.
  induction 1 as [| h t Hs IH Hh]; intros Hm x y Hx Hy Hlt; [destruct Hx |].
  simpl in Hm. inversion Hm as [| ? ? Hm' Hall]; subst.
  rewrite Forall_forall in Hh, Hall.
  destruct Hx as [<- | Hx]; destruct Hy as [<- | Hy].
  - lia.
  - apply Hall, in_map, Hy.
  - specialize (Hh _ Hx). lia.
  - apply IH; assumption.
Qed.

(** Over the generation range the date texts increase with the day. *)
Lemma strftime_increasing (d d' : Z) :
  start_date_gen <= d -> d < d' -> d' <= end_date_gen ->
  String.compare (strftime d) (strftime d') = Lt.
Proof.
  intros H1 H2 H3.
  apply (sorted_map_mono strftime (fun a b => String.compare a b = Lt)
           (Calendar.date_range start_date_gen end_date_gen)).
  - apply date_range_increasing.
  - apply increasingb_sorted. vm_compute. reflexivity.
  - apply date_range_In. lia.
  - apply date_range_In. lia.
  - exact H2.
Qed.

Lemma ord2ymd_datetime (d : Z) :
  start_date_gen <= d <= end_date_gen ->
  let '(year, month, day) := ord2ymd d in
  Calendar.datetime year month day = d /\ year = 2024.
Proof.
  intros H.
  assert (Hall : forallb (fun d =>
             let '(year, month, day) := ord2ymd d in
             (Calendar.datetime year month day =? d) && (year =? 2024))
           (Calendar.date_range start_date_gen end_date_gen) = true)
    by (vm_compute; reflexivity).
  rewrite forallb_forall in Hall.
  specialize (Hall d (proj2 (date_range_In _ _ d) H)).
  destruct (ord2ymd d) as [[year month] day].
  apply andb_true_iff in Hall. destruct Hall as [E1 E2].
  split; [apply Z.eqb_eq, E1 | apply Z.eqb_eq, E2].
Qed.

Section SortTextProps.

Context {E : Type} (by_ : E -> string).

Lemma insert_text_desc_perm (x : E) (l : list E) :
  Permutation (insert_text_desc by_ x l) (x :: l).
Proof.
  induction l as [| y l IH]; simpl; [reflexivity |].
  destruct (String.compare (by_ y) (by_ x)); try reflexivity.
  rewrite IH. apply perm_swap.
Qed.

Lemma sort_text_desc_perm (l : list E) :
  Permutation (sort_text_desc by_ l) l.
Proof.
  induction l as [| x l IH]; simpl; [reflexivity |].
  rewrite insert_text_desc_perm. constructor. exact IH.
Qed.

Lemma insert_text_desc_sorted (x : E) (l : list E) :
  StronglySorted (fun a b => String.compare (by_ b) (by_ a) <> Gt) l ->
  StronglySorted (fun a b => String.compare (by_ b) (by_ a) <> Gt)
    (insert_text_desc by_ x l).
Proof.
  induction 1 as [| y l Hs IH Hy]; simpl.
  - constructor; constructor.
  - destruct (String.compare (by_ y) (by_ x)) eqn:Hc.
    + constructor; [constructor; assumption |].
      constructor; [rewrite Hc; discriminate |].
      eapply Forall_impl; [| exact Hy]. intros z Hz. simpl in Hz.
      apply (string_le_trans _ (by_ y) _ Hz). rewrite Hc. discriminate.
    + constructor; [constructor; assumption |].
      constructor; [rewrite Hc; discriminate |].
      eapply Forall_impl; [| exact Hy]. intros z Hz. simpl in Hz.
      apply (string_le_trans _ (by_ y) _ Hz). rewrite Hc. discriminate.
    + constructor; [exact IH |].
      apply Forall_forall. intros z Hz.
      apply (Permutation_in _ (insert_text_desc_perm x l)) in Hz.
      destruct Hz as [<- | Hz].
      * rewrite String_as_OT.cmp_antisym.
        change (String_as_OT.cmp (by_ y) (by_ x))
          with (String.compare (by_ y) (by_ x)).
        rewrite Hc. discriminate.
      * rewrite Forall_forall in Hy. apply Hy, Hz.
Qed.

Lemma sort_text_desc_sorted (l : list E) :
  StronglySorted (fun a b => String.compare (by_ b) (by_ a) <> Gt)
    (sort_text_desc by_ l).
Proof.
  induction l as [| x l IH]; simpl.
  - constructor.
  - apply insert_text_desc_sorted, IH.
Qed.

End SortTextProps.

Lemma sort_text_desc_map {A B : Type} (f : A -> B) (by_ : B -> string)
    (l : list A) :
  sort_text_desc by_ (map f l)
    = map f (sort_text_desc (fun a => by_ (f a)) l).
Proof.
  induction l as [| x l IH]; simpl; [reflexivity |].
  rewrite IH. generalize (sort_text_desc (fun a => by_ (f a)) l) as s.
  induction s as [| y s IHs]; simpl; [reflexivity |].
  destruct (String.compare (by_ (f y)) (by_ (f x))); simpl;
    try reflexivity.
  rewrite IHs. reflexivity.
Qed.

Lemma StronglySorted_impl_In {A : Type} (r1 r2 : A -> A -> Prop) (l : list A) :
  (forall a b, In a l -> In b l -> r1 a b -> r2 a b) ->
  StronglySorted r1 l -> StronglySorted r2 l.
Proof.
  intros H Hs. induction Hs as [| x l Hs IH Hx]; constructor.
  - apply IH. intros a b Ha Hb. apply H; right; assumption.
  - rewrite Forall_forall in *. intros z Hz.
    apply H; [left; reflexivity | right; exact Hz | apply Hx, Hz].
Qed.

(** X19: lines 207-209 on a log whose dates lie in the generation range: the
    detail table holds the filtered records, each once with its date as
    [YYYY-MM-DD] text and its other six fields unchanged, newest day
    first; the text of a date is that of the year, month and day whose
    ordinal is the date. *)
Theorem display_df_newest_first :
  forall (df : list row) (sel : selection),
    Forall (fun r => start_date_gen <= Date r <= end_date_gen) df ->
    (exists l,
        Permutation l (filtered_df df sel) /\
        display_df df sel = map format_date l /\
        StronglySorted (fun a b => Date b <= Date a) l) /\
    List.length (display_df df sel) = List.length (filtered_df df sel) /\
    (forall r, In r df ->
        let '(year, month, day) := ord2ymd (Date r) in
        Calendar.datetime year month day = Date r /\
        d_Date (format_date r)
          = (pad4 year ++ "-" ++ pad2 month ++ "-" ++ pad2 day)%string).
Proof.
  intros df sel Hwin. unfold display_df.
  rewrite sort_text_desc_map. simpl d_Date.
  set (key := fun r : row => strftime (Date r)).
  set (l := sort_text_desc key (filtered_df df sel)).
  assert (Hp : Permutation l (filtered_df df sel))
    by apply sort_text_desc_perm.
  assert (Hin : forall r, In r l -> start_date_gen <= Date r <= end_date_gen).
  { intros r Hr. apply (Permutation_in _ Hp) in Hr.
    apply filtered_df_In in Hr. rewrite Forall_forall in Hwin.
    apply Hwin, Hr. }
  split; [| split].
  - exists l. split; [exact Hp |]. split; [reflexivity |].
    apply (StronglySorted_impl_In
             (fun a b => String.compare (key b) (key a) <> Gt)).
    + intros a b Ha Hb Hc.
      destruct (Z_le_gt_dec (Date b) (Date a)) as [Hle | Hgt]; [exact Hle |].
      exfalso. apply Hc. unfold key.
      rewrite String_as_OT.cmp_antisym.
      change (String_as_OT.cmp (strftime (Date a)) (strftime (Date b)))
        with (String.compare (strftime (Date a)) (strftime (Date b))).
      rewrite (strftime_increasing (Date a) (Date b));
        [reflexivity | apply Hin, Ha | lia | apply Hin, Hb].
    + apply sort_text_desc_sorted.
  - rewrite length_map. apply Permutation_length, Hp.
  - intros r Hr. rewrite Forall_forall in Hwin.
    pose proof (ord2ymd_datetime (Date r) (Hwin r Hr)) as H.
    unfold format_date, strftime. simpl d_Date.
    destruct (ord2ymd (Date r)) as [[year month] day].
    split; [apply H | reflexivity].
Qed.

Lemma display_df_newest_first_witness :
  Forall (fun r => start_date_gen <= Date r <= end_date_gen) sample_log /\
  map d_Date (display_df sample_log sample_selection)
    = ["2024-01-30"; "2024-01-28"; "2024-01-27"] /\
  List.length (display_df sample_log sample_selection)
    = List.length (filtered_df sample_log sample_selection).
Proof.
  assert (Hwin : Forall (fun r => start_date_gen <= Date r <= end_date_gen)
                        sample_log).
  { apply Forall_forall. intros r Hr. simpl in Hr.
    repeat (destruct Hr as [<- | Hr]; [vm_compute; split; discriminate |]).
    destruct Hr. }
  split; [exact Hwin |]. split; [vm_compute; reflexivity |].
  exact (proj1 (proj2 (display_df_newest_first sample_log sample_selection Hwin))).
Defined.
